(** * Reddit-Fetch: the OAuth token bootstrap ([reddit_fetch/generate_tokens.py])

    A shallow embedding of [generate_tokens.py] and of the library calls it
    makes, followed by the properties of the authorization flow.

    Conventions.
    - A Python [str] is a Rocq [string] holding the UTF-8 bytes of the text.
      Library functions are modelled on such text; what each of them does
      with characters outside ASCII is said at its definition.
    - The process state that the script reads and writes is explicit: the
      token file, the module-level [auth_code], what each thread printed and
      what left the process (browser launch, HTTP reply, token POST).
    - The busy-wait loop of [get_tokens] is run with fuel; every statement
      about the flow returning gives the fuel that suffices, and every
      statement about it hanging holds for all fuel. *)

From Stdlib Require Import Bool Arith NArith ZArith Lia List Ascii String.
From Stdlib Require Import DecimalString.
Import ListNotations.

#[local] Set Warnings "-register-all".

Open Scope list_scope.
Open Scope string_scope.

(* ================================================================== *)
(** ** Text helpers *)

Module Text.

(** The double quote character and a string wrapped in double quotes. *)
Definition dq : ascii := ascii_of_nat 34%nat.
Definition bslash : ascii := ascii_of_nat 92%nat.
Definition dquote : string := String dq EmptyString.
Definition quoted (s : string) : string := dquote ++ s ++ dquote.

Local Open Scope N_scope.

Definition code (c : ascii) : N := N_of_ascii c.
Definition chr (n : N) : ascii := ascii_of_N n.
Definition str1 (c : ascii) : string := String c EmptyString.

Definition in_range (lo hi : N) (c : ascii) : bool :=
  (N.leb lo (code c) && N.leb (code c) hi)%bool.

Definition is_digit (c : ascii) : bool := in_range 48 57 c.

(** [str(n)] for a Python [int], also what an f-string prints for it. *)
Definition str_of_Z (z : Z) : string := NilZero.string_of_int (Z.to_int z).

Fixpoint rev_string (s acc : string) : string :=
  match s with
  | EmptyString => acc
  | String c r => rev_string r (String c acc)
  end.

(** The whitespace of [str.strip()] with no argument, that is the characters
    for which [str.isspace()] holds.  In ASCII: TAB, LF, VT, FF, CR, the
    separators 0x1c-0x1f and the space. *)
Definition is_py_space (c : ascii) : bool :=
  (in_range 9 13 c || in_range 28 31 c || N.eqb (code c) 32)%bool.

(** Beyond ASCII, by the bytes of their UTF-8 form: U+0085 and U+00A0 (two
    bytes); U+1680, U+2000 to U+200A, U+2028, U+2029, U+202F, U+205F and
    U+3000 (three bytes). *)
Definition is_space2 (a b : ascii) : bool :=
  (N.eqb (code a) 194 && (N.eqb (code b) 133 || N.eqb (code b) 160))%bool.

Definition is_space3 (a b c : ascii) : bool :=
  (N.eqb (code a) 225 && N.eqb (code b) 154 && N.eqb (code c) 128 ||
   N.eqb (code a) 226 && N.eqb (code b) 128 &&
     (in_range 128 138 c || N.eqb (code c) 168 || N.eqb (code c) 169 || N.eqb (code c) 175) ||
   N.eqb (code a) 226 && N.eqb (code b) 129 && N.eqb (code c) 159 ||
   N.eqb (code a) 227 && N.eqb (code b) 128 && N.eqb (code c) 128)%bool.

(** [str.lstrip()] *)
Fixpoint lstrip (s : string) : string :=
  match s with
  | EmptyString => EmptyString
  | String a r =>
      if is_py_space a then lstrip r
      else
        match r with
        | String b r1 =>
            if is_space2 a b then lstrip r1
            else
              match r1 with
              | String c r2 => if is_space3 a b c then lstrip r2 else s
              | EmptyString => s
              end
        | EmptyString => s
        end
  end.

(** [lstrip] for a text given from its last byte to its first, where the
    bytes of a character come in the opposite order. *)
Fixpoint lstrip_rev (s : string) : string :=
  match s with
  | EmptyString => EmptyString
  | String a r =>
      if is_py_space a then lstrip_rev r
      else
        match r with
        | String b r1 =>
            if is_space2 b a then lstrip_rev r1
            else
              match r1 with
              | String c r2 => if is_space3 c b a then lstrip_rev r2 else s
              | EmptyString => s
              end
        | EmptyString => s
        end
  end.

(** [str.strip()]: whitespace is removed at the start, then at the end. *)
Definition strip (s : string) : string :=
  rev_string (lstrip_rev (rev_string (lstrip s) EmptyString)) EmptyString.

(** [sub in s] for two strings: [sub] occurs in [s]. *)
Fixpoint contains (sub s : string) : bool :=
  (prefix sub s ||
   match s with
   | EmptyString => false
   | String _ r => contains sub r
   end)%bool.

(** [s.split(sep, 1)] on a one-character separator: the text before the first
    [sep] and, when there is one, the text after it. *)
Fixpoint split_once (sep : ascii) (s : string) : string * option string :=
  match s with
  | EmptyString => (EmptyString, None)
  | String c r =>
      if Ascii.eqb c sep then (EmptyString, Some r)
      else let '(a, b) := split_once sep r in (String c a, b)
  end.

(** [s.split(sep)] on a one-character separator. *)
Fixpoint split_all (sep : ascii) (s : string) : list string :=
  match s with
  | EmptyString => [EmptyString]
  | String c r =>
      if Ascii.eqb c sep then EmptyString :: split_all sep r
      else match split_all sep r with
           | [] => [str1 c]
           | h :: t => String c h :: t
           end
  end.

(** [s.replace(a, b)] on single characters. *)
Fixpoint replace_char (a b : ascii) (s : string) : string :=
  match s with
  | EmptyString => EmptyString
  | String c r => String (if Ascii.eqb c a then b else c) (replace_char a b r)
  end.

Definition hex_digit (n : N) : ascii :=
  if N.ltb n 10 then chr (48 + n) else chr (87 + n).

Definition hex_val (c : ascii) : option N :=
  if in_range 48 57 c then Some (code c - 48)
  else if in_range 97 102 c then Some (code c - 87)
  else if in_range 65 70 c then Some (code c - 55)
  else None.

(** Four lower-case hexadecimal digits, as in [format(n, '04x')]. *)
Definition hex4 (n : N) : string :=
  String (hex_digit (N.modulo (N.shiftr n 12) 16))
 (String (hex_digit (N.modulo (N.shiftr n 8) 16))
 (String (hex_digit (N.modulo (N.shiftr n 4) 16))
 (String (hex_digit (N.modulo n 16)) EmptyString))).

Definition hex2 (n : N) : string :=
  String (hex_digit (N.modulo (N.shiftr n 4) 16))
 (String (hex_digit (N.modulo n 16)) EmptyString).

(** UTF-8 encoding of one code point (surrogates included, in their
    three-byte form, so that a lone [\ud800] of a JSON text stays visible). *)
Definition utf8_encode (cp : N) : string :=
  if N.ltb cp 128 then str1 (chr cp)
  else if N.ltb cp 2048 then
    String (chr (192 + N.shiftr cp 6))
   (String (chr (128 + N.modulo cp 64)) EmptyString)
  else if N.ltb cp 65536 then
    String (chr (224 + N.shiftr cp 12))
   (String (chr (128 + N.modulo (N.shiftr cp 6) 64))
   (String (chr (128 + N.modulo cp 64)) EmptyString))
  else
    String (chr (240 + N.shiftr cp 18))
   (String (chr (128 + N.modulo (N.shiftr cp 12) 64))
   (String (chr (128 + N.modulo (N.shiftr cp 6) 64))
   (String (chr (128 + N.modulo cp 64)) EmptyString))).

Definition is_cont (c : ascii) : bool := in_range 128 191 c.

(** The replacement character U+FFFD, in UTF-8. *)
Definition fffd : string := String (chr 239) (String (chr 191) (String (chr 189) EmptyString)).

(** Whether [b] may follow the lead byte [a] of a sequence of three or four
    bytes: a continuation byte, and neither an overlong form nor a surrogate
    nor a character above U+10FFFF. *)
Definition second_ok (a b : ascii) : bool :=
  (is_cont b &&
   (if N.eqb (code a) 224 then N.leb 160 (code b) else true) &&
   (if N.eqb (code a) 237 then N.leb (code b) 159 else true) &&
   (if N.eqb (code a) 240 then N.leb 144 (code b) else true) &&
   (if N.eqb (code a) 244 then N.leb (code b) 143 else true))%bool.

(** [bytes.decode("utf-8", errors="replace")], the text given in UTF-8
    again: well-formed sequences stay, and each longest run of bytes that
    starts a sequence without completing it, like each byte that starts
    none, becomes U+FFFD. *)
Fixpoint utf8_replace (s : string) : string :=
  match s with
  | EmptyString => EmptyString
  | String a r =>
      if N.ltb (code a) 128 then String a (utf8_replace r)
      else if in_range 194 223 a then
        match r with
        | String b r1 =>
            if is_cont b then String a (String b (utf8_replace r1))
            else fffd ++ utf8_replace r
        | EmptyString => fffd
        end
      else if in_range 224 239 a then
        match r with
        | String b r1 =>
            if second_ok a b then
              match r1 with
              | String c r2 =>
                  if is_cont c then String a (String b (String c (utf8_replace r2)))
                  else fffd ++ utf8_replace r1
              | EmptyString => fffd
              end
            else fffd ++ utf8_replace r
        | EmptyString => fffd
        end
      else if in_range 240 244 a then
        match r with
        | String b r1 =>
            if second_ok a b then
              match r1 with
              | String c r2 =>
                  if is_cont c then
                    match r2 with
                    | String d r3 =>
                        if is_cont d then
                          String a (String b (String c (String d (utf8_replace r3))))
                        else fffd ++ utf8_replace r2
                    | EmptyString => fffd
                    end
                  else fffd ++ utf8_replace r1
              | EmptyString => fffd
              end
            else fffd ++ utf8_replace r
        | EmptyString => fffd
        end
      else fffd ++ utf8_replace r
  end.

End Text.

(* ================================================================== *)
(** ** JSON values and the [json] module *)

Module Json.
Import Text.

(** What [json.load] returns: [None], [bool], [int], [float], [str], [list]
    or [dict].  An [int] is exact.  A [float] keeps the lexeme it was read
    from ([NaN], [Infinity] and [-Infinity] included) and is written back as
    that lexeme, where Python writes the [repr] of the double it stands for;
    the properties below that name a text do so for strings and integers. *)
Inductive json : Type :=
| JNull
| JBool (b : bool)
| JInt (z : Z)
| JFloat (lexeme : string)
| JString (s : string)
| JArray (xs : list json)
| JObject (kvs : list (string * json)).

(** A [dict] with [str] keys, in insertion order. *)
Definition dict := list (string * json).

Fixpoint dict_get (k : string) (d : dict) : option json :=
  match d with
  | [] => None
  | (k', v) :: r => if String.eqb k k' then Some v else dict_get k r
  end.

(** [k in d] *)
Definition dict_has (k : string) (d : dict) : bool :=
  match dict_get k d with Some _ => true | None => false end.

(** [d[k] = v]: a key already present keeps its place and takes the new
    value, which is how [dict(pairs)] treats a repeated member name. *)
Fixpoint dict_set (k : string) (v : json) (d : dict) : dict :=
  match d with
  | [] => [(k, v)]
  | (k', v') :: r =>
      if String.eqb k k' then (k, v) :: r else (k', v') :: dict_set k v r
  end.

(** *** Decoding: [json.loads] with the default (strict) decoder *)

Definition is_ws (c : ascii) : bool :=
  (N.eqb (code c) 32 || N.eqb (code c) 9 ||
   N.eqb (code c) 10 || N.eqb (code c) 13)%bool.

Fixpoint skip_ws (s : string) : string :=
  match s with
  | EmptyString => EmptyString
  | String c r => if is_ws c then skip_ws r else s
  end.

Fixpoint drop (n : nat) (s : string) : string :=
  match n, s with
  | S k, String _ r => drop k r
  | _, _ => s
  end.

Definition simple_escape (e : ascii) : option ascii :=
  if Ascii.eqb e dq then Some dq
  else if Ascii.eqb e bslash then Some bslash
  else if Ascii.eqb e "/" then Some "/"%char
  else if Ascii.eqb e "b" then Some (chr 8)
  else if Ascii.eqb e "f" then Some (chr 12)
  else if Ascii.eqb e "n" then Some (chr 10)
  else if Ascii.eqb e "r" then Some (chr 13)
  else if Ascii.eqb e "t" then Some (chr 9)
  else None.

Definition hex4_val (a b c d : ascii) : option N :=
  match hex_val a, hex_val b, hex_val c, hex_val d with
  | Some x, Some y, Some z, Some w => Some (4096 * x + 256 * y + 16 * z + w)%N
  | _, _, _, _ => None
  end.

Definition is_high_surrogate (u : N) : bool := (N.leb 55296 u && N.leb u 56319)%bool.
Definition is_low_surrogate (u : N) : bool := (N.leb 56320 u && N.leb u 57343)%bool.
Definition join_surrogates (hi lo : N) : N :=
  (65536 + 1024 * (hi - 55296) + (lo - 56320))%N.

Definition prepend (t : string) (k : option (string * string)) : option (string * string) :=
  match k with
  | Some (u, rest) => Some (t ++ u, rest)
  | None => None
  end.

(** [scanstring]: the text after an opening quote, up to the closing one.
    A raw control character, an unknown escape and an unterminated string
    are decoding errors. *)
Fixpoint scan_string (s : string) : option (string * string) :=
  match s with
  | EmptyString => None
  | String c r =>
      if Ascii.eqb c dq then Some (EmptyString, r)
      else if Ascii.eqb c bslash then
        match r with
        | EmptyString => None
        | String e r1 =>
            match simple_escape e with
            | Some ch => prepend (str1 ch) (scan_string r1)
            | None =>
                if Ascii.eqb e "u" then
                  match r1 with
                  | String h1 (String h2 (String h3 (String h4 r2))) =>
                      match hex4_val h1 h2 h3 h4 with
                      | None => None
                      | Some u =>
                          match r2 with
                          | String b (String e' (String l1 (String l2 (String l3 (String l4 r3))))) =>
                              match hex4_val l1 l2 l3 l4 with
                              | Some lo =>
                                  if (is_high_surrogate u && Ascii.eqb b bslash &&
                                      Ascii.eqb e' "u" && is_low_surrogate lo)%bool
                                  then prepend (utf8_encode (join_surrogates u lo)) (scan_string r3)
                                  else prepend (utf8_encode u) (scan_string r2)
                              | None => prepend (utf8_encode u) (scan_string r2)
                              end
                          | _ => prepend (utf8_encode u) (scan_string r2)
                          end
                      end
                  | _ => None
                  end
                else None
            end
        end
      else if N.ltb (code c) 32 then None
      else prepend (str1 c) (scan_string r)
  end.

Fixpoint span_digits (s : string) : string * string :=
  match s with
  | EmptyString => (EmptyString, EmptyString)
  | String c r =>
      if is_digit c then let '(d, rest) := span_digits r in (String c d, rest)
      else (EmptyString, s)
  end.

Fixpoint Z_of_digits (acc : Z) (s : string) : Z :=
  match s with
  | EmptyString => acc
  | String c r => Z_of_digits (10 * acc + Z.of_N (code c - 48)) r
  end.

(** A number: an optional minus sign; the integer part, a single 0 or a
    digit 1-9 followed by digits; an optional fraction, a dot and at least one
    digit; an optional exponent, e or E, an optional sign and at least one
    digit.  It is an [int] when there is neither fraction nor exponent, else
    a [float]. *)
Definition scan_number (s : string) : option (json * string) :=
  let '(neg, s1) :=
    match s with
    | String "-" r => (true, r)
    | _ => (false, s)
    end in
  match s1 with
  | String c r =>
      if is_digit c then
        let '(ip, r1) :=
          if Ascii.eqb c "0" then ("0", r) else span_digits s1 in
        let '(frac, r2) :=
          match r1 with
          | String "." q =>
              match span_digits q with
              | (EmptyString, _) => (EmptyString, r1)
              | (d, rest) => ("." ++ d, rest)
              end
          | _ => (EmptyString, r1)
          end in
        let '(ex, r3) :=
          match r2 with
          | String e q =>
              if (Ascii.eqb e "e" || Ascii.eqb e "E")%bool then
                let '(sg, q1) :=
                  match q with
                  | String "+" q' => ("+", q')
                  | String "-" q' => ("-", q')
                  | _ => (EmptyString, q)
                  end in
                match span_digits q1 with
                | (EmptyString, _) => (EmptyString, r2)
                | (d, rest) => (str1 e ++ sg ++ d, rest)
                end
              else (EmptyString, r2)
          | _ => (EmptyString, r2)
          end in
        let sign := if neg then "-" else EmptyString in
        match frac, ex with
        | EmptyString, EmptyString =>
            Some (JInt (if neg then (- Z_of_digits 0 ip)%Z else Z_of_digits 0 ip), r3)
        | _, _ => Some (JFloat (sign ++ ip ++ frac ++ ex), r3)
        end
      else None
  | EmptyString => None
  end.

(** [scan_once] and the object and array loops.  [fuel] bounds the number of
    values, members and elements opened; [loads] gives two more than the
    length of the text, and each unit spent is paid for by at least one
    character read. *)
Fixpoint parse_value (fuel : nat) (s : string) : option (json * string) :=
  match fuel with
  | O => None
  | S f =>
      match s with
      | EmptyString => None
      | String c r =>
          if Ascii.eqb c dq then
            match scan_string r with
            | Some (t, rest) => Some (JString t, rest)
            | None => None
            end
          else if Ascii.eqb c "{" then
            match skip_ws r with
            | String "}" rest => Some (JObject [], rest)
            | r' => parse_members f r' []
            end
          else if Ascii.eqb c "[" then
            match skip_ws r with
            | String "]" rest => Some (JArray [], rest)
            | r' => parse_elements f r' []
            end
          else if prefix "null" s then Some (JNull, drop 4 s)
          else if prefix "true" s then Some (JBool true, drop 4 s)
          else if prefix "false" s then Some (JBool false, drop 5 s)
          else if prefix "NaN" s then Some (JFloat "NaN", drop 3 s)
          else if prefix "Infinity" s then Some (JFloat "Infinity", drop 8 s)
          else if prefix "-Infinity" s then Some (JFloat "-Infinity", drop 9 s)
          else scan_number s
      end
  end
with parse_members (fuel : nat) (s : string) (acc : dict) : option (json * string) :=
  match fuel with
  | O => None
  | S f =>
      match s with
      | String q r =>
          if Ascii.eqb q dq then
            match scan_string r with
            | Some (k, r1) =>
                match skip_ws r1 with
                | String ":" r2 =>
                    match parse_value f (skip_ws r2) with
                    | Some (v, r3) =>
                        let acc' := dict_set k v acc in
                        match skip_ws r3 with
                        | String "}" rest => Some (JObject acc', rest)
                        | String "," rest => parse_members f (skip_ws rest) acc'
                        | _ => None
                        end
                    | None => None
                    end
                | _ => None
                end
            | None => None
            end
          else None
      | EmptyString => None
      end
  end
with parse_elements (fuel : nat) (s : string) (acc : list json) : option (json * string) :=
  match fuel with
  | O => None
  | S f =>
      match parse_value f s with
      | Some (v, r1) =>
          match skip_ws r1 with
          | String "]" rest => Some (JArray (acc ++ [v])%list, rest)
          | String "," rest => parse_elements f (skip_ws rest) (acc ++ [v])%list
          | _ => None
          end
      | None => None
      end
  end.

(** [json.loads(s)]: [None] stands for [json.JSONDecodeError].  Leading and
    trailing whitespace is allowed, anything else after the value is the
    error [Extra data]. *)
Definition loads (s : string) : option json :=
  match parse_value (S (S (String.length s))) (skip_ws s) with
  | Some (v, rest) =>
      match skip_ws rest with
      | EmptyString => Some v
      | _ => None
      end
  | None => None
  end.

(** *** Encoding: [json.dumps] with the default encoder
    ([ensure_ascii=True], separators [", "] and [": "]) *)

Definition u_escape (cp : N) : string :=
  if N.ltb cp 65536 then String bslash ("u" ++ hex4 cp)
  else
    let n := (cp - 65536)%N in
    String bslash ("u" ++ hex4 (55296 + N.shiftr n 10)) ++
    String bslash ("u" ++ hex4 (56320 + N.modulo n 1024)).

Definition escape_char (c : ascii) : string :=
  let n := code c in
  if Ascii.eqb c dq then String bslash dquote
  else if Ascii.eqb c bslash then String bslash (str1 bslash)
  else if N.eqb n 10 then String bslash "n"
  else if N.eqb n 13 then String bslash "r"
  else if N.eqb n 9 then String bslash "t"
  else if N.eqb n 8 then String bslash "b"
  else if N.eqb n 12 then String bslash "f"
  else if (N.ltb n 32 || N.eqb n 127)%bool then u_escape n
  else str1 c.

(** The number of bytes of the UTF-8 sequence that a lead byte opens. *)
Definition utf8_width (c : ascii) : nat :=
  if in_range 192 223 c then 2
  else if in_range 224 239 c then 3
  else if in_range 240 247 c then 4
  else 1.

Definition low6 (c : ascii) : N := N.modulo (code c) 64.

(** [py_encode_basestring_ascii] without the surrounding quotes: every
    character outside the printable ASCII range becomes a [\uXXXX] escape
    (a surrogate pair above the basic plane).  A byte that opens no
    well-formed sequence, which no Python [str] contains, is escaped as the
    character of the same number. *)
Fixpoint escape_ascii (s : string) : string :=
  match s with
  | EmptyString => EmptyString
  | String c r =>
      match utf8_width c, r with
      | 2%nat, String c2 r2 =>
          u_escape (64 * (code c - 192) + low6 c2) ++ escape_ascii r2
      | 3%nat, String c2 (String c3 r3) =>
          u_escape (4096 * (code c - 224) + 64 * low6 c2 + low6 c3) ++ escape_ascii r3
      | 4%nat, String c2 (String c3 (String c4 r4)) =>
          u_escape (262144 * (code c - 240) + 4096 * low6 c2 + 64 * low6 c3 + low6 c4)
            ++ escape_ascii r4
      | _, _ =>
          (if N.ltb (code c) 128 then escape_char c else u_escape (code c))
            ++ escape_ascii r
      end
  end.

Definition dumps_string (s : string) : string := quoted (escape_ascii s).

Fixpoint join (sep : string) (l : list string) : string :=
  match l with
  | [] => EmptyString
  | [x] => x
  | x :: r => x ++ sep ++ join sep r
  end.

Fixpoint dumps (v : json) : string :=
  match v with
  | JNull => "null"
  | JBool true => "true"
  | JBool false => "false"
  | JInt z => str_of_Z z
  | JFloat lexeme => lexeme
  | JString s => dumps_string s
  | JArray xs => "[" ++ join ", " (List.map dumps xs) ++ "]"
  | JObject kvs =>
      "{" ++ join ", "
        (List.map (fun kv => dumps_string (fst kv) ++ ": " ++ dumps (snd kv)) kvs) ++ "}"
  end.

(** *** [str()] and [repr()] of a decoded value, as an f-string prints it *)

Definition squote : ascii := "'"%char.

(** [repr] of a [str]: single quotes, unless the text holds a single quote
    and no double quote.  Characters outside ASCII are taken to be printable
    and stay as they are. *)
Definition repr_char (quote c : ascii) : string :=
  let n := code c in
  if (Ascii.eqb c quote || Ascii.eqb c bslash)%bool then String bslash (str1 c)
  else if N.eqb n 9 then String bslash "t"
  else if N.eqb n 10 then String bslash "n"
  else if N.eqb n 13 then String bslash "r"
  else if (N.ltb n 32 || N.eqb n 127)%bool then String bslash ("x" ++ hex2 n)
  else str1 c.

Fixpoint repr_chars (quote : ascii) (s : string) : string :=
  match s with
  | EmptyString => EmptyString
  | String c r => repr_char quote c ++ repr_chars quote r
  end.

Definition repr_string (s : string) : string :=
  let quote :=
    if (contains (str1 squote) s && negb (contains dquote s))%bool then dq else squote in
  String quote (repr_chars quote s ++ str1 quote).

Fixpoint py_repr (v : json) : string :=
  match v with
  | JNull => "None"
  | JBool true => "True"
  | JBool false => "False"
  | JInt z => str_of_Z z
  | JFloat lexeme => lexeme
  | JString s => repr_string s
  | JArray xs => "[" ++ join ", " (List.map py_repr xs) ++ "]"
  | JObject kvs =>
      "{" ++ join ", "
        (List.map (fun kv => repr_string (fst kv) ++ ": " ++ py_repr (snd kv)) kvs) ++ "}"
  end.

Definition py_str (v : json) : string :=
  match v with
  | JString s => s
  | _ => py_repr v
  end.

End Json.

(* ================================================================== *)
(** ** [urllib.parse] and [base64], as far as the script uses them *)

Module Urllib.
Import Text.

(** [urlparse(path).query] for the target of an HTTP request line in origin
    form, one [/] and what follows, as a browser sends it for the redirect:
    the fragment, from the first [#] on, is cut first; the query is what
    follows the first [?] of the rest, and is empty when there is none.
    Such a target has neither scheme nor host.  For a target with a host,
    [urlparse] checks the host and can raise [ValueError], as it does for
    [http://[::1/], and the handler then sends no reply at all; those
    targets are outside this definition. *)
Definition urlparse_query (path : string) : string :=
  let '(url, _) := split_once "#" path in
  match split_once "?" url with
  | (_, Some query) => query
  | (_, None) => EmptyString
  end.

(** [unquote_to_bytes]: each [%XX] with two hexadecimal digits becomes the
    byte [0xXX]; a [%] not followed by two such digits stays. *)
Fixpoint percent_decode (s : string) : string :=
  match s with
  | EmptyString => EmptyString
  | String c r =>
      if Ascii.eqb c "%" then
        match r with
        | String a (String b r2) =>
            match hex_val a, hex_val b with
            | Some x, Some y => String (chr (16 * x + y)) (percent_decode r2)
            | _, _ => String c (percent_decode r)
            end
        | _ => String c (percent_decode r)
        end
      else String c (percent_decode r)
  end.

(** [unquote(s)] with its defaults: the escapes are replaced by their bytes
    and the bytes are read as UTF-8 with [errors="replace"].  (Python decodes
    each ASCII stretch of [s] by itself; since the characters of [s] outside
    ASCII are whole sequences already, reading all the bytes at once gives
    the same text.) *)
Definition unquote (s : string) : string := utf8_replace (percent_decode s).

(** [parse_qsl(qs)] with its defaults: fields are separated by [&]; an empty
    field, a field without [=] and a field with an empty value are skipped
    ([keep_blank_values=False], [strict_parsing=False]); [+] stands for a
    space and names and values are unquoted. *)
Definition parse_field (name_value : string) : option (string * string) :=
  match name_value with
  | EmptyString => None
  | _ =>
      match split_once "=" name_value with
      | (_, None) => None
      | (_, Some EmptyString) => None
      | (n, Some v) =>
          Some (unquote (replace_char "+" " " n), unquote (replace_char "+" " " v))
      end
  end.

Fixpoint collect {A : Type} (l : list (option A)) : list A :=
  match l with
  | [] => []
  | Some x :: r => x :: collect r
  | None :: r => collect r
  end.

Definition parse_qsl (qs : string) : list (string * string) :=
  match qs with
  | EmptyString => []
  | _ => collect (List.map parse_field (split_all "&" qs))
  end.

(** The [dict] of [parse_qs]: each name with the list of its values, names
    in order of first appearance. *)
Definition qdict := list (string * list string).

Fixpoint qdict_add (name value : string) (d : qdict) : qdict :=
  match d with
  | [] => [(name, [value])]
  | (n, vs) :: r =>
      if String.eqb name n then (n, (vs ++ [value])%list) :: r
      else (n, vs) :: qdict_add name value r
  end.

Definition parse_qs (qs : string) : qdict :=
  List.fold_left (fun d nv => qdict_add (fst nv) (snd nv) d) (parse_qsl qs) [].

Fixpoint qdict_get (name : string) (d : qdict) : option (list string) :=
  match d with
  | [] => None
  | (n, vs) :: r => if String.eqb name n then Some vs else qdict_get name r
  end.

End Urllib.

Module Base64.
Import Text.

Definition alphabet (n : N) : ascii :=
  if N.ltb n 26 then chr (65 + n)
  else if N.ltb n 52 then chr (71 + n)
  else if N.ltb n 62 then chr (n - 4)
  else if N.eqb n 62 then "+"%char
  else "/"%char.

(** [base64.b64encode]: three bytes give four characters, a last group of
    one or two bytes is padded with [=]. *)
Fixpoint b64encode (s : string) : string :=
  match s with
  | EmptyString => EmptyString
  | String a EmptyString =>
      let x := code a in
      String (alphabet (N.shiftr x 2))
     (String (alphabet (N.modulo (N.shiftl x 4) 64)) "==")
  | String a (String b EmptyString) =>
      let x := code a in
      let y := code b in
      String (alphabet (N.shiftr x 2))
     (String (alphabet (N.modulo (N.shiftl x 4) 64 + N.shiftr y 4))
     (String (alphabet (N.modulo (N.shiftl y 2) 64)) "="))
  | String a (String b (String c r)) =>
      let x := code a in
      let y := code b in
      let z := code c in
      String (alphabet (N.shiftr x 2))
     (String (alphabet (N.modulo (N.shiftl x 4) 64 + N.shiftr y 4))
     (String (alphabet (N.modulo (N.shiftl y 2) 64 + N.shiftr z 6))
     (String (alphabet (N.modulo z 64)) (b64encode r))))
  end.

End Base64.

(* ================================================================== *)
(** ** The process: state, effects and exceptions *)

Module Proc.
Import Text Json.

(** The exceptions that the calls of the script can raise.
    [JSONDecodeError] and [UnicodeDecodeError] are subclasses of
    [ValueError]; the others are not. *)
Inductive exn : Type :=
| JSONDecodeError
| UnicodeDecodeError
| TypeError
| KeyError (key : string)
| FileNotFoundError
| ConnectionError.

Definition is_ValueError (e : exn) : bool :=
  match e with
  | JSONDecodeError | UnicodeDecodeError => true
  | _ => false
  end.

(** What a thread prints and what leaves the process. *)
Inductive event : Type :=
| Print (line : string)
| BrowserOpen (url : string)
| Post (url : string) (headers data : list (string * string))
| Reply (status : Z) (body : string).

(** The one-shot callback server of [start_auth_server]. *)
Inductive listener_state : Type :=
| NotStarted
| Listening
| Finished.

(** The files of the working directory: the bytes stored under each name. *)
Definition files := string -> option string.

Definition write_to (path content : string) (fs : files) : files :=
  fun p => if String.eqb p path then Some content else fs p.

(** - [fs]: the working directory;
    - [auth_code]: the module-level global, [None] until a handler sets it;
    - [listener]: the daemon thread;
    - [inbound]: the redirect that the browser will send, if any: a GET
      request, given by the number of [time.sleep(0.1)] calls of the main
      thread that pass before it reaches the listener, and by its request
      target;
    - [main_log], [listener_log]: the events of each thread, oldest first. *)
Record world : Type := mkWorld {
  fs : files;
  auth_code : option string;
  listener : listener_state;
  inbound : option (nat * string);
  main_log : list event;
  listener_log : list event
}.

Definition set_fs (f : files) (w : world) : world :=
  mkWorld f (auth_code w) (listener w) (inbound w) (main_log w) (listener_log w).
Definition set_auth_code (c : option string) (w : world) : world :=
  mkWorld (fs w) c (listener w) (inbound w) (main_log w) (listener_log w).
Definition set_listener (l : listener_state) (w : world) : world :=
  mkWorld (fs w) (auth_code w) l (inbound w) (main_log w) (listener_log w).
Definition set_inbound (i : option (nat * string)) (w : world) : world :=
  mkWorld (fs w) (auth_code w) (listener w) i (main_log w) (listener_log w).
Definition log_main (es : list event) (w : world) : world :=
  mkWorld (fs w) (auth_code w) (listener w) (inbound w)
          (main_log w ++ es)%list (listener_log w).
Definition log_listener (es : list event) (w : world) : world :=
  mkWorld (fs w) (auth_code w) (listener w) (inbound w)
          (main_log w) (listener_log w ++ es)%list.

(** How a call ends: it returns, it raises, or the main thread is still in
    its polling loop when the fuel is spent. *)
Inductive result (A : Type) : Type :=
| Done (a : A)
| Raised (e : exn)
| Waiting.
Arguments Done {A} a.
Arguments Raised {A} e.
Arguments Waiting {A}.

Definition M (A : Type) : Type := world -> result A * world.

Definition ret {A : Type} (a : A) : M A := fun w => (Done a, w).

Definition bind {A B : Type} (m : M A) (k : A -> M B) : M B :=
  fun w =>
    match m w with
    | (Done a, w') => k a w'
    | (Raised e, w') => (Raised e, w')
    | (Waiting, w') => (Waiting, w')
    end.

Definition raise {A : Type} (e : exn) : M A := fun w => (Raised e, w).

(** [try: m except <the classes of catches>: h] *)
Definition try_except {A : Type} (m : M A) (catches : exn -> bool) (h : M A) : M A :=
  fun w =>
    match m w with
    | (Raised e, w') => if catches e then h w' else (Raised e, w')
    | r => r
    end.

Definition modify (f : world -> world) : M unit := fun w => (Done tt, f w).

Declare Scope proc_scope.
Delimit Scope proc_scope with proc.
Notation "x <- m ;; k" := (bind m (fun x => k))
  (at level 61, m at next level, right associativity) : proc_scope.
Notation "m ;; k" := (bind m (fun _ => k))
  (at level 61, right associativity) : proc_scope.
Open Scope proc_scope.

Definition print (line : string) : M unit := modify (log_main [Print line]).

(** [os.path.exists(path)] *)
Definition path_exists (path : string) : M bool :=
  fun w => (Done (match fs w path with Some _ => true | None => false end), w).

(** Strict UTF-8: no overlong form, no surrogate, nothing above U+10FFFF. *)
Fixpoint utf8_valid (s : string) : bool :=
  match s with
  | EmptyString => true
  | String c r =>
      if N.ltb (code c) 128 then utf8_valid r
      else if in_range 194 223 c then
        match r with
        | String c2 r2 => (is_cont c2 && utf8_valid r2)%bool
        | _ => false
        end
      else if in_range 224 239 c then
        match r with
        | String c2 (String c3 r3) =>
            (is_cont c2 && is_cont c3 &&
             (if N.eqb (code c) 224 then N.leb 160 (code c2) else true) &&
             (if N.eqb (code c) 237 then N.leb (code c2) 159 else true) &&
             utf8_valid r3)%bool
        | _ => false
        end
      else if in_range 240 244 c then
        match r with
        | String c2 (String c3 (String c4 r4)) =>
            (is_cont c2 && is_cont c3 && is_cont c4 &&
             (if N.eqb (code c) 240 then N.leb 144 (code c2) else true) &&
             (if N.eqb (code c) 244 then N.leb (code c2) 143 else true) &&
             utf8_valid r4)%bool
        | _ => false
        end
      else false
  end.

(** [json.load] on the bytes of a file opened with [encoding="utf-8"]:
    reading raises [UnicodeDecodeError] when the bytes are not UTF-8,
    decoding raises [JSONDecodeError]. *)
Definition load_bytes (bytes : string) : exn + json :=
  if utf8_valid bytes then
    match loads bytes with
    | Some v => inr v
    | None => inl JSONDecodeError
    end
  else inl UnicodeDecodeError.

(** [with open(path, "r", encoding="utf-8") as file: json.load(file)] *)
Definition json_load (path : string) : M json :=
  fun w =>
    match fs w path with
    | Some bytes =>
        match load_bytes bytes with
        | inr v => (Done v, w)
        | inl e => (Raised e, w)
        end
    | None => (Raised FileNotFoundError, w)
    end.

(** [with open(path, "w", encoding="utf-8") as file: json.dump(obj, file)] *)
Definition json_dump (obj : json) (path : string) : M unit :=
  modify (fun w => set_fs (write_to path (dumps obj) (fs w)) w).

(** [key in obj] for a [str] key: membership of the key in a [dict], of an
    equal element in a [list], of the substring in a [str]; [TypeError] for
    [None], [bool], [int] and [float], which are not containers. *)
Definition py_in (key : string) (obj : json) : M bool :=
  match obj with
  | JObject d => ret (dict_has key d)
  | JArray xs =>
      ret (List.existsb
             (fun x => match x with JString s => String.eqb s key | _ => false end) xs)
  | JString s => ret (contains key s)
  | _ => raise TypeError
  end.

(** [obj[key]] for a [str] key: the value of the key in a [dict], [KeyError]
    when it is missing; [TypeError] for every other type. *)
Definition py_getitem (obj : json) (key : string) : M json :=
  match obj with
  | JObject d =>
      match dict_get key d with
      | Some v => ret v
      | None => raise (KeyError key)
      end
  | _ => raise TypeError
  end.

End Proc.

(* ================================================================== *)
(** ** [reddit_fetch/generate_tokens.py] *)

Module GenerateTokens.
Import Text Json Urllib Base64 Proc.

Definition nl : string := str1 (chr 10).

(** [os.environ] after [load_dotenv()]. *)
Definition environ := list (string * string).

(** [os.getenv(name, default)] *)
Fixpoint getenv (name default : string) (env : environ) : string :=
  match env with
  | [] => default
  | (n, v) :: r => if String.eqb name n then v else getenv name default r
  end.

(** The module-level credentials, read once at import and stripped. *)
Record config : Type := mkConfig {
  CLIENT_ID : string;
  CLIENT_SECRET : string;
  REDIRECT_URI : string;
  USER_AGENT : string
}.

Definition load_config (env : environ) : config :=
  {| CLIENT_ID := strip (getenv "CLIENT_ID" EmptyString env);
     CLIENT_SECRET := strip (getenv "CLIENT_SECRET" EmptyString env);
     REDIRECT_URI := strip (getenv "REDIRECT_URI" EmptyString env);
     USER_AGENT := strip (getenv "USER_AGENT" EmptyString env) |}.

Definition TOKEN_FILE : string := "tokens.json".

(** The answer of the provider to the token request; [requests.post] raises
    when there is none. *)
Record response : Type := mkResponse {
  status_code : Z;
  text : string
}.

Record post_request : Type := mkPost {
  post_url : string;
  post_headers : list (string * string);
  post_data : list (string * string)
}.

Definition provider := post_request -> option response.

(** *** The callback listener *)

(** [AuthHandler.do_GET], run by the listener thread on a request target. *)
Definition do_GET (path : string) (w : world) : world :=
  let query_components := parse_qs (urlparse_query path) in
  match qdict_get "code" query_components with
  | Some (v :: _) =>
      let c := strip v in
      log_listener
        [Reply 200 "Authorization successful! You can close this tab.";
         Print ("✅ Authorization Code Captured: " ++ c)]
        (set_auth_code (Some c) w)
  | Some [] => w
  | None =>
      log_listener [Reply 400 "Error: Authorization code not found."] w
  end.

(** [threading.Thread(target=start_auth_server, daemon=True).start()]: the
    thread binds localhost:8080, prints and blocks in [handle_request]. *)
Definition start_auth_server : M unit :=
  modify (fun w =>
    log_listener [Print "🌍 Waiting for authorization..."]
      (set_listener Listening w)).

(** The listener thread between two polls of the main thread: when the
    redirect is due, [handle_request] serves that one request and the thread
    ends. *)
Definition listener_progress (w : world) : world :=
  match listener w, inbound w with
  | Listening, Some (O, path) =>
      set_listener Finished (set_inbound None (do_GET path w))
  | _, _ => w
  end.

(** [time.sleep(0.1)]: one tenth of a second nearer to the redirect. *)
Definition sleep (w : world) : world :=
  match inbound w with
  | Some (S k, path) => set_inbound (Some (k, path)) w
  | _ => w
  end.

(** [while auth_code is None: time.sleep(0.1)], then the value read. *)
Fixpoint busy_wait (fuel : nat) : M string :=
  fun w =>
    let w1 := listener_progress w in
    match auth_code w1 with
    | Some c => (Done c, w1)
    | None =>
        match fuel with
        | O => (Waiting, w1)
        | S f => busy_wait f (sleep w1)
        end
    end.

(** *** The credential store *)

Definition load_existing_tokens : M bool :=
  exists_ <- path_exists TOKEN_FILE ;;
  if exists_ then
    try_except
      (tokens <- json_load TOKEN_FILE ;;
       found <- py_in "refresh_token" tokens ;;
       if found then
         print "✅ Refresh token already exists. No need to re-authenticate." ;;
         ret true
       else ret false)
      is_ValueError
      (print "❌ Token file is corrupted. Re-authenticating..." ;;
       ret false)
  else ret false.

(** *** The orchestrator *)

Definition authorization_url (cfg : config) : string :=
  "https://www.reddit.com/api/v1/authorize?client_id=" ++ CLIENT_ID cfg ++
  "&response_type=code" ++
  "&state=RANDOM_STRING&redirect_uri=" ++ REDIRECT_URI cfg ++
  "&duration=permanent&scope=identity history read save".

Definition webbrowser_open (url : string) : M unit :=
  modify (log_main [BrowserOpen url]).

Definition token_request (cfg : config) (code : string) : post_request :=
  let auth_string := CLIENT_ID cfg ++ ":" ++ CLIENT_SECRET cfg in
  let b64_auth := b64encode auth_string in
  {| post_url := "https://www.reddit.com/api/v1/access_token";
     post_headers :=
       [("Authorization", "Basic " ++ b64_auth);
        ("User-Agent", USER_AGENT cfg);
        ("Content-Type", "application/x-www-form-urlencoded")];
     post_data :=
       [("grant_type", "authorization_code");
        ("code", code);
        ("redirect_uri", REDIRECT_URI cfg)] |}.

(** [requests.post(url, headers=headers, data=data)]: the provider answers,
    or the transport fails and the call raises.  The call is made without a
    timeout; a provider that never answers, with which the call blocks for
    ever, is outside [provider]. *)
Definition requests_post (net : provider) (rq : post_request) : M response :=
  fun w =>
    let w' := log_main [Post (post_url rq) (post_headers rq) (post_data rq)] w in
    match net rq with
    | Some r => (Done r, w')
    | None => (Raised ConnectionError, w')
    end.

(** [response.json()] *)
Definition response_json (r : response) : M json :=
  match loads (text r) with
  | Some v => ret v
  | None => raise JSONDecodeError
  end.

(** The [try] block of the failure branch with its bare [except]: the
    provider's [error] and [message] when the body is a JSON object, the raw
    body when it is no JSON or no object ([.get] then raises
    [AttributeError], which the bare [except] takes). *)
Definition error_detail (r : response) : string :=
  match loads (text r) with
  | Some (JObject error_json) =>
      let detail :=
        nl ++ "Error: " ++
        py_str (match dict_get "error" error_json with
                | Some v => v
                | None => JString "Unknown"
                end) in
      match dict_get "message" error_json with
      | Some m => detail ++ nl ++ "Message: " ++ py_str m
      | None => detail
      end
  | _ => nl ++ "Response: " ++ text r
  end.

Definition unauthorized_hints : list event :=
  [Print (nl ++ "⚠️  Common causes of 401 Unauthorized:");
   Print "1. CLIENT_ID is incorrect (should be the ID under your app name)";
   Print "2. CLIENT_SECRET is incorrect";
   Print "3. Credentials have leading/trailing whitespace";
   Print "4. REDIRECT_URI doesn't match your Reddit app settings exactly";
   Print (nl ++ "💡 Run 'python validate_credentials.py' to test your credentials")].

Definition get_tokens (cfg : config) (net : provider) (fuel : nat) : M unit :=
  skip <- load_existing_tokens ;;
  if skip then ret tt
  else
    start_auth_server ;;
    print "🌍 Opening Reddit authorization page in your browser..." ;;
    webbrowser_open (authorization_url cfg) ;;
    code <- busy_wait fuel ;;
    response <- requests_post net (token_request cfg code) ;;
    if Z.eqb (status_code response) 200 then
      tokens <- response_json response ;;
      refresh_token <- py_getitem tokens "refresh_token" ;;
      let token_data := JObject [("refresh_token", refresh_token)] in
      json_dump token_data TOKEN_FILE ;;
      print "✅ Refresh token saved in tokens.json"
    else
      print ("❌ Authentication failed: " ++ str_of_Z (status_code response)
               ++ error_detail response) ;;
      if Z.eqb (status_code response) 401 then
        modify (log_main unauthorized_hints)
      else ret tt.

(** A process at start: nothing printed, no code, no thread. *)
Definition start (f : files) (redirect : option (nat * string)) : world :=
  {| fs := f; auth_code := None; listener := NotStarted;
     inbound := redirect; main_log := []; listener_log := [] |}.

End GenerateTokens.

(* ================================================================== *)
(** ** Vocabulary of the properties *)

Module Flow.
Import Text Json Urllib Base64 Proc GenerateTokens.

(** The events that reach the network or the browser. *)
Definition is_network (e : event) : bool :=
  match e with
  | BrowserOpen _ | Post _ _ _ => true
  | _ => false
  end.

Definition network_events (log : list event) : list event :=
  List.filter is_network log.

(** The addresses handed to the browser. *)
Definition browser_urls (log : list event) : list string :=
  List.flat_map (fun e => match e with BrowserOpen u => [u] | _ => [] end) log.

(** A run that is still polling whatever fuel it is given: it never returns
    and never raises. *)
Definition hangs {A : Type} (run : nat -> result A * world) : Prop :=
  forall fuel, fst (run fuel) = Waiting.

(** The [code] parameter that [do_GET] finds in a request target. *)
Definition code_of (path : string) : option (list string) :=
  qdict_get "code" (parse_qs (urlparse_query path)).

(** The part of [get_tokens] that follows the store check, and the part that
    follows the polling loop. *)
Definition exchange (cfg : config) (net : provider) (code : string) : M unit :=
  response <- requests_post net (token_request cfg code) ;;
  if Z.eqb (status_code response) 200 then
    tokens <- response_json response ;;
    refresh_token <- py_getitem tokens "refresh_token" ;;
    let token_data := JObject [("refresh_token", refresh_token)] in
    json_dump token_data TOKEN_FILE ;;
    print "✅ Refresh token saved in tokens.json"
  else
    print ("❌ Authentication failed: " ++ str_of_Z (status_code response)
             ++ error_detail response) ;;
    if Z.eqb (status_code response) 401 then
      modify (log_main unauthorized_hints)
    else ret tt.

Definition consent (cfg : config) (net : provider) (fuel : nat) : M unit :=
  start_auth_server ;;
  print "🌍 Opening Reddit authorization page in your browser..." ;;
  webbrowser_open (authorization_url cfg) ;;
  code <- busy_wait fuel ;;
  exchange cfg net code.

(** The world once the listener has served the request [path]. *)
Definition served (path : string) (w : world) : world :=
  set_listener Finished (set_inbound None (do_GET path w)).

(** The world in which the main thread enters its polling loop. *)
Definition consent_opened (cfg : config) (w : world) : world :=
  log_main [BrowserOpen (authorization_url cfg)]
    (log_main [Print "🌍 Opening Reddit authorization page in your browser..."]
       (log_listener [Print "🌍 Waiting for authorization..."]
          (set_listener Listening w))).

(** The store check as the amended contract words it: a record exists,
    decodes to a JSON object, and the object has the key, whatever the value
    under it. *)
Definition record_has_refresh_token (f : option string) : bool :=
  match f with
  | Some bytes =>
      match load_bytes bytes with
      | inr (JObject d) => dict_has "refresh_token" d
      | _ => false
      end
  | None => false
  end.

(** A record that decodes to a JSON document other than an object. *)
Definition non_object_document (f : option string) : bool :=
  match f with
  | Some bytes =>
      match load_bytes bytes with
      | inr (JObject _) => false
      | inr _ => true
      | inl _ => false
      end
  | None => false
  end.

Definition has_empty_field (cfg : config) : bool :=
  (String.eqb (CLIENT_ID cfg) EmptyString || String.eqb (CLIENT_SECRET cfg) EmptyString ||
   String.eqb (REDIRECT_URI cfg) EmptyString || String.eqb (USER_AGENT cfg) EmptyString)%bool.

(** The POST of the token exchange and the report of a refused one, as
    events of the main thread. *)
Definition post_event (cfg : config) (code : string) : event :=
  Post (post_url (token_request cfg code)) (post_headers (token_request cfg code))
       (post_data (token_request cfg code)).

Definition failure_report (rsp : response) : list event :=
  Print ("❌ Authentication failed: " ++ str_of_Z (status_code rsp) ++ error_detail rsp)
  :: (if Z.eqb (status_code rsp) 401 then unauthorized_hints else []).

(** [n] runs of [get_tokens] one after the other, in the same directory. *)
Fixpoint after_runs (cfg : config) (net : provider) (fuel : nat) (n : nat) (w : world) : world :=
  match n with
  | O => w
  | S k => after_runs cfg net fuel k (snd (get_tokens cfg net fuel w))
  end.

End Flow.

(* ================================================================== *)
(** ** Concrete runs *)

Module Runs.
Import Text Json Urllib Base64 Proc GenerateTokens Flow.

Definition empty_dir : files := fun _ => None.

Definition dir_with (bytes : string) : files := write_to TOKEN_FILE bytes empty_dir.

Definition env_ok : environ :=
  [("CLIENT_ID", " abc "); ("CLIENT_SECRET", "xyz");
   ("REDIRECT_URI", "http://localhost:8080"); ("USER_AGENT", "fetch/1.0 by u")].

(** CLIENT_ID is only blanks and USER_AGENT is not set. *)
Definition env_blank : environ :=
  [("CLIENT_ID", "   "); ("CLIENT_SECRET", "xyz");
   ("REDIRECT_URI", "http://localhost:8080")].

Definition member (k v : string) : string := quoted k ++ ":" ++ quoted v.

(** The bodies that the spec names. *)
Definition body_tokens : string :=
  "{" ++ member "refresh_token" "r_xyz" ++ "," ++ member "access_token" "a_1" ++ "," ++
  quoted "expires_in" ++ ":3600}".
Definition body_no_refresh : string :=
  "{" ++ member "access_token" "a_1" ++ "," ++ quoted "expires_in" ++ ":3600}".
Definition body_invalid_grant : string := "{" ++ member "error" "invalid_grant" ++ "}".

Definition answers (status : Z) (body : string) : provider :=
  fun _ => Some (mkResponse status body).

(** Token files. *)
Definition record_r_xyz : string := "{" ++ quoted "refresh_token" ++ ": " ++ quoted "r_xyz" ++ "}".
Definition record_empty_token : string :=
  "{" ++ quoted "refresh_token" ++ ": " ++ quoted EmptyString ++ "}".
Definition record_null : string := "null".
Definition record_list : string := "[" ++ quoted "refresh_token" ++ "]".
Definition record_truncated : string := "{" ++ quoted "refresh_token" ++ ": " ++ dquote ++ "r_x".

Definition redirect_code : string := "/?code=abc123&state=RANDOM_STRING".
Definition redirect_denied : string := "/?error=access_denied".

End Runs.

(* ================================================================== *)
(** ** [reddit_fetch/config.py] *)

Module Config.
Import Text.

(** The module-level settings: the four credentials and the user name,
    stripped, and the token file, which is [/data/tokens.json] when the
    variable DOCKER is exactly [1] and [tokens.json] otherwise. *)
Record settings : Type := mkSettings {
  CLIENT_ID : string;
  CLIENT_SECRET : string;
  REDIRECT_URI : string;
  USER_AGENT : string;
  REDDIT_USERNAME : string;
  TOKEN_FILE : string
}.

Definition load (env : GenerateTokens.environ) : settings :=
  {| CLIENT_ID := strip (GenerateTokens.getenv "CLIENT_ID" EmptyString env);
     CLIENT_SECRET := strip (GenerateTokens.getenv "CLIENT_SECRET" EmptyString env);
     REDIRECT_URI := strip (GenerateTokens.getenv "REDIRECT_URI" EmptyString env);
     USER_AGENT := strip (GenerateTokens.getenv "USER_AGENT" EmptyString env);
     REDDIT_USERNAME := strip (GenerateTokens.getenv "REDDIT_USERNAME" EmptyString env);
     TOKEN_FILE :=
       if String.eqb (GenerateTokens.getenv "DOCKER" "0" env) "1"
       then "/data/tokens.json" else "tokens.json" |}.

(** A delay argument: an [int], or a [float] whose value is a whole number,
    as the defaults 1.0 and 16.0 are; [Float z] stands for the float of
    value [z]. *)
Inductive number : Type :=
| Int (z : Z)
| Float (z : Z).

Definition value (x : number) : Z :=
  match x with Int z => z | Float z => z end.

Definition is_float (x : number) : bool :=
  match x with Int _ => false | Float _ => true end.

(** The value of [min(base_delay * (2 ** attempt), max_delay)] for an
    attempt that is an [int] and not negative.  The power is an exact [int].
    Its product with an [int] is exact; its product with a whole [float] is
    exact as long as it is a float at all, and an infinity of the same sign
    beyond that, which [min] and [time.sleep] treat as they treat the exact
    product: above every float cap, and out of the range of [time.sleep]. *)
Definition backoff_delay (attempt : N) (base_delay max_delay : Z) : Z :=
  Z.min (base_delay * 2 ^ Z.of_N attempt) max_delay.

(** How a call ends: [time.sleep] has slept, or an exception leaves
    [exponential_backoff], which catches none. *)
Inductive slept : Type :=
| Slept (seconds : Z)
| SleepValueError
| SleepOverflowError
| SleepOSError
| FloatOverflowError.

(** The longest sleep, in seconds, that fits the 64-bit count of nanoseconds
    in which CPython keeps time. *)
Definition longest_sleep : Z := 9223372036.

(** [time.sleep(secs)] for a whole number of seconds, [int] or [float]: a
    length beyond [longest_sleep] in either direction fails in the conversion
    with [OverflowError]; a negative length within it is a [ValueError];
    any other length goes to the operating system, which sleeps that long or
    refuses with [OSError], as Linux does for a deadline beyond its clock:
    [os_sleeps] tells which. *)
Definition time_sleep (os_sleeps : Z -> bool) (secs : Z) : slept :=
  if Z.ltb longest_sleep (Z.abs secs) then SleepOverflowError
  else if Z.ltb secs 0 then SleepValueError
  else if os_sleeps secs then Slept secs
  else SleepOSError.

(** [exponential_backoff(attempt, base_delay, max_delay)].  With a [float]
    base delay the power is converted to [float] for the product, which
    raises [OverflowError] from [2 ** 1024] on, whatever the base delay. *)
Definition exponential_backoff (os_sleeps : Z -> bool) (attempt : N)
           (base_delay max_delay : number) : slept :=
  if (is_float base_delay && N.leb 1024 attempt)%bool then FloatOverflowError
  else time_sleep os_sleeps (backoff_delay attempt (value base_delay) (value max_delay)).

(** The defaults [base_delay=1.0] and [max_delay=16.0]. *)
Definition default_backoff (os_sleeps : Z -> bool) (attempt : N) : slept :=
  exponential_backoff os_sleeps attempt (Float 1) (Float 16).

Definition seconds_slept (o : slept) : Z :=
  match o with Slept seconds => seconds | _ => 0%Z end.

(** The seconds slept over the attempts 0, 1, ..., n-1 with the defaults. *)
Fixpoint total_default_delay (os_sleeps : Z -> bool) (n : nat) : Z :=
  match n with
  | O => 0
  | S k => total_default_delay os_sleeps k + seconds_slept (default_backoff os_sleeps (N.of_nat k))
  end.

End Config.

(* ================================================================== *)
(** ** [validate_credentials.py]: the checks of [main] and its probe *)

Module ValidateCredentials.
Import Text Base64 GenerateTokens.

(** [len(s)]: the number of characters, which for UTF-8 is the number of
    bytes that are not continuation bytes. *)
Fixpoint py_len (s : string) : nat :=
  match s with
  | EmptyString => O
  | String c r => if is_cont c then py_len r else S (py_len r)
  end.

(** [not s] *)
Definition is_empty (s : string) : bool :=
  match s with EmptyString => true | _ => false end.

Record credentials : Type := mkCredentials {
  client_id : string;
  client_secret : string;
  redirect_uri : string;
  user_agent : string;
  reddit_username : string
}.

(** Lines 23-27: the variables, stripped. *)
Definition read_credentials (env : environ) : credentials :=
  {| client_id := strip (getenv "CLIENT_ID" EmptyString env);
     client_secret := strip (getenv "CLIENT_SECRET" EmptyString env);
     redirect_uri := strip (getenv "REDIRECT_URI" EmptyString env);
     user_agent := strip (getenv "USER_AGENT" EmptyString env);
     reddit_username := strip (getenv "REDDIT_USERNAME" EmptyString env) |}.

(** [if cond: issues.append(issue)] *)
Definition when (cond : bool) (issue : string) : list string :=
  if cond then [issue] else [].

(** Lines 40-49 and 60-69: the same checks for the identifier and for the
    secret. *)
Definition id_or_secret_issues (value : string) : list string :=
  if is_empty value then ["MISSING"]
  else
    (when (Nat.ltb (py_len value) 10) "Too short" ++
     when (contains " " value) "Contains spaces" ++
     when (negb (String.eqb value (strip value))) "Has leading/trailing whitespace")%list.

Definition client_id_issues (c : credentials) : list string :=
  id_or_secret_issues (client_id c).

Definition client_secret_issues (c : credentials) : list string :=
  id_or_secret_issues (client_secret c).

(** Lines 80-87. *)
Definition redirect_uri_issues (c : credentials) : list string :=
  if is_empty (redirect_uri c) then ["MISSING"]
  else
    (when (negb (prefix "http://" (redirect_uri c) || prefix "https://" (redirect_uri c)))
       "Invalid format" ++
     when (contains " " (redirect_uri c)) "Contains spaces")%list.

(** Lines 98-105. *)
Definition user_agent_issues (c : credentials) : list string :=
  if is_empty (user_agent c) then ["MISSING"]
  else
    (when (Nat.ltb (py_len (user_agent c)) 5) "Too short" ++
     when (negb (contains "/" (user_agent c) || contains " " (user_agent c)))
       "Should follow format: AppName/Version by /u/username")%list.

(** Lines 116-118. *)
Definition username_issues (c : credentials) : list string :=
  when (is_empty (reddit_username c)) "MISSING".

(** The truth value of a list: it is not empty. *)
Definition any_issue (issues : list string) : bool :=
  match issues with [] => false | _ :: _ => true end.

(** Line 131: whether the credentials are tried against the provider. *)
Definition tests_credentials (c : credentials) : bool :=
  (negb (is_empty (client_id c)) && negb (is_empty (client_secret c)) &&
   negb (any_issue (client_id_issues c) || any_issue (client_secret_issues c)))%bool.

(** Lines 136-155: the client-credentials request (sent with a timeout of
    ten seconds). *)
Definition probe_request (c : credentials) : post_request :=
  let auth_string := client_id c ++ ":" ++ client_secret c in
  let b64_auth := b64encode auth_string in
  {| post_url := "https://www.reddit.com/api/v1/access_token";
     post_headers :=
       [("Authorization", "Basic " ++ b64_auth);
        ("User-Agent",
         if is_empty (user_agent c) then "CredentialValidator/1.0" else user_agent c);
        ("Content-Type", "application/x-www-form-urlencoded")];
     post_data := [("grant_type", "client_credentials")] |}.

(** The requests that [main] sends: the probe when line 131 allows it, and
    nothing otherwise. *)
Definition requests_sent (env : environ) : list post_request :=
  let c := read_credentials env in
  if tests_credentials c then [probe_request c] else [].

End ValidateCredentials.

(* ================================================================== *)
(** ** Vocabulary of the further properties *)

Module Words.
Import Text Json Urllib Proc GenerateTokens Flow.

Definition rev (s : string) : string := rev_string s EmptyString.

(** Nothing but ASCII whitespace, the empty text included. *)
Fixpoint blank (s : string) : bool :=
  match s with
  | EmptyString => true
  | String c r => (is_py_space c && blank r)%bool
  end.

(** The characters for which [str.isspace()] holds, by code point. *)
Definition space_code_points : list N :=
  [9; 10; 11; 12; 13; 28; 29; 30; 31; 32; 133; 160; 5760;
   8192; 8193; 8194; 8195; 8196; 8197; 8198; 8199; 8200; 8201; 8202;
   8232; 8233; 8239; 8287; 12288]%N.

Definition spaces : list string := List.map utf8_encode space_code_points.

(** [s] without the prefix [p], when it starts with it. *)
Fixpoint drop_prefix (p s : string) : option string :=
  match p, s with
  | EmptyString, _ => Some s
  | String a p', String b s' => if Ascii.eqb a b then drop_prefix p' s' else None
  | String _ _, EmptyString => None
  end.

Fixpoint drop_first (l : list string) (s : string) : option string :=
  match l with
  | [] => None
  | p :: l' =>
      match drop_prefix p s with
      | Some r => Some r
      | None => drop_first l' s
      end
  end.

(** [s] without its first character, when that is whitespace. *)
Definition skip_space (s : string) : option string := drop_first spaces s.

Fixpoint only_spaces (fuel : nat) (s : string) : bool :=
  match s with
  | EmptyString => true
  | String _ _ =>
      match fuel with
      | O => false
      | S n =>
          match skip_space s with
          | Some r => only_spaces n r
          | None => false
          end
      end
  end.

(** Nothing but whitespace characters, the empty text included. *)
Definition all_space (s : string) : bool := only_spaces (String.length s) s.

(** The whitespace that [lstrip] finds at the start of a text, by its bytes,
    and the rest. *)
Definition lead (s : string) : option string :=
  match s with
  | EmptyString => None
  | String a r =>
      if is_py_space a then Some r
      else
        match r with
        | String b r1 =>
            if is_space2 a b then Some r1
            else
              match r1 with
              | String c r2 => if is_space3 a b c then Some r2 else None
              | EmptyString => None
              end
        | EmptyString => None
        end
  end.

Definition lead_rev (s : string) : option string :=
  match s with
  | EmptyString => None
  | String a r =>
      if is_py_space a then Some r
      else
        match r with
        | String b r1 =>
            if is_space2 b a then Some r1
            else
              match r1 with
              | String c r2 => if is_space3 c b a then Some r2 else None
              | EmptyString => None
              end
        | EmptyString => None
        end
  end.

(** A request target in origin form, which is what a browser sends for the
    redirect: it starts with one [/], and it has no tab, line feed or
    carriage return, which cannot be in a request line and which [urlparse]
    would drop. *)
Definition origin_form (path : string) : bool :=
  match path with
  | String "/" (String "/" _) => false
  | String "/" r =>
      negb (contains (str1 (chr 9)) r || contains (str1 (chr 10)) r ||
            contains (str1 (chr 13)) r)
  | _ => false
  end.

(** The values that a name has in a [dict] of [parse_qs], none when it is
    absent. *)
Definition current (name : string) (d : qdict) : list string :=
  match qdict_get name d with Some l => l | None => [] end.

(** The values that a list of fields gives to one name, in order. *)
Fixpoint values_of (name : string) (pairs : list (string * string)) : list string :=
  match pairs with
  | [] => []
  | (n, v) :: r => if String.eqb name n then v :: values_of name r else values_of name r
  end.

(** The value of a header of a request. *)
Fixpoint lookup (name : string) (l : list (string * string)) : option string :=
  match l with
  | [] => None
  | (n, v) :: r => if String.eqb name n then Some v else lookup name r
  end.

Definition header (name : string) (rq : post_request) : option string :=
  lookup name (post_headers rq).

(** The token file as [get_tokens] writes it for a string token. *)
Definition record_of (token : string) : string :=
  "{" ++ quoted "refresh_token" ++ ": " ++ dumps_string token ++ "}".

(** A run comes to an end, by returning or by raising, on some fuel. *)
Definition terminates {A : Type} (run : nat -> result A * world) : Prop :=
  exists fuel, fst (run fuel) <> Waiting.

(** Printable ASCII, the quote and the backslash left out: what
    [json.dump] writes as it is. *)
Definition is_plain (c : ascii) : bool :=
  (in_range 32 126 c && negb (Ascii.eqb c dq) && negb (Ascii.eqb c bslash))%bool.

Fixpoint all_plain (s : string) : bool :=
  match s with
  | EmptyString => true
  | String c r => (is_plain c && all_plain r)%bool
  end.

Fixpoint all_ascii (s : string) : bool :=
  match s with
  | EmptyString => true
  | String c r => (N.ltb (code c) 128 && all_ascii r)%bool
  end.

End Words.

(* ================================================================== *)
(** ** Properties *)

Module Properties.
Import Text Json Urllib Base64 Proc GenerateTokens Flow Runs.

(** *** The library models on the values that the spec names *)

Example b64encode_basic_auth : b64encode "abc:xyz" = "YWJjOnh5eg==".
Proof. reflexivity. Qed.

Example token_request_authorization :
  List.hd (EmptyString, EmptyString) (post_headers (token_request (load_config env_ok) "abc123")) =
    ("Authorization", "Basic YWJjOnh5eg==").
Proof. vm_compute. reflexivity. Qed.

Example parse_qs_redirect_code :
  parse_qs (urlparse_query redirect_code) =
    [("code", ["abc123"]); ("state", ["RANDOM_STRING"])].
Proof. vm_compute. reflexivity. Qed.

Example parse_qs_drops_blank_code :
  parse_qs (urlparse_query "/?code=&state=RANDOM_STRING") = [("state", ["RANDOM_STRING"])].
Proof. vm_compute. reflexivity. Qed.

Example loads_body_tokens :
  loads body_tokens =
    Some (JObject [("refresh_token", JString "r_xyz"); ("access_token", JString "a_1");
                   ("expires_in", JInt 3600)]).
Proof. vm_compute. reflexivity. Qed.

Example loads_rejects_truncated : loads record_truncated = None.
Proof. vm_compute. reflexivity. Qed.

Example dumps_record : dumps (JObject [("refresh_token", JString "r_xyz")]) = record_r_xyz.
Proof. vm_compute. reflexivity. Qed.

Example load_config_strips : CLIENT_ID (load_config env_ok) = "abc".
Proof. vm_compute. reflexivity. Qed.

(** *** The store check, case by case *)

Lemma load_bytes_error (bytes : string) (e : exn) :
  load_bytes bytes = inl e -> is_ValueError e = true.
Proof.
  unfold load_bytes.
  destruct (utf8_valid bytes); [destruct (loads bytes)|]; intros H;
    inversion H; reflexivity.
Qed.

Lemma load_existing_tokens_absent (w : world) :
  fs w TOKEN_FILE = None ->
  load_existing_tokens w = (Done false, w).
Proof.
  intros H. unfold load_existing_tokens, bind, path_exists.
  rewrite H. reflexivity.
Qed.

Lemma load_existing_tokens_undecodable (w : world) (bytes : string) (e : exn) :
  fs w TOKEN_FILE = Some bytes ->
  load_bytes bytes = inl e ->
  load_existing_tokens w =
    (Done false, log_main [Print "❌ Token file is corrupted. Re-authenticating..."] w).
Proof.
  intros H He. pose proof (load_bytes_error _ _ He) as Hv.
  unfold load_existing_tokens, bind, path_exists, try_except, json_load.
  cbv beta. rewrite H. cbv beta iota. rewrite H, He, Hv. reflexivity.
Qed.

Lemma load_existing_tokens_decoded (w : world) (bytes : string) (v : json) :
  fs w TOKEN_FILE = Some bytes ->
  load_bytes bytes = inr v ->
  load_existing_tokens w =
    match py_in "refresh_token" v w with
    | (Done true, w') =>
        (Done true,
         log_main [Print "✅ Refresh token already exists. No need to re-authenticate."] w')
    | r => r
    end.
Proof.
  intros H Hv.
  unfold load_existing_tokens, bind, path_exists, try_except, json_load.
  cbv beta. rewrite H. cbv beta iota. rewrite H, Hv.
  destruct v; try reflexivity; unfold py_in, ret.
  - destruct (contains "refresh_token" s); reflexivity.
  - match goal with |- context [List.existsb ?f ?l] => destruct (List.existsb f l) end;
      reflexivity.
  - destruct (dict_has "refresh_token" kvs); reflexivity.
Qed.

Lemma load_existing_tokens_object (w : world) (bytes : string) (d : dict) :
  fs w TOKEN_FILE = Some bytes ->
  load_bytes bytes = inr (JObject d) ->
  load_existing_tokens w =
    if dict_has "refresh_token" d
    then (Done true,
          log_main [Print "✅ Refresh token already exists. No need to re-authenticate."] w)
    else (Done false, w).
Proof.
  intros H Hv. rewrite (load_existing_tokens_decoded w bytes _ H Hv).
  unfold py_in, ret. destruct (dict_has "refresh_token" d); reflexivity.
Qed.

Lemma log_main_nil (w : world) : log_main [] w = w.
Proof. destruct w. unfold log_main. simpl. rewrite app_nil_r. reflexivity. Qed.

(** The store check only ever prints: it leaves the rest of the world as it
    found it, and what it prints is no network event. *)
Lemma load_existing_tokens_frame (w : world) :
  exists es,
    snd (load_existing_tokens w) = log_main es w /\ network_events es = [].
Proof.
  destruct (fs w TOKEN_FILE) as [bytes|] eqn:Hf.
  - destruct (load_bytes bytes) as [e|v] eqn:Hv.
    + exists [Print "❌ Token file is corrupted. Re-authenticating..."].
      rewrite (load_existing_tokens_undecodable w bytes e Hf Hv). split; reflexivity.
    + rewrite (load_existing_tokens_decoded w bytes v Hf Hv).
      destruct (py_in "refresh_token" v w) as [[[|]|e|] w'] eqn:Hp.
      * exists [Print "✅ Refresh token already exists. No need to re-authenticate."].
        destruct v; unfold py_in, ret, raise in Hp; try discriminate;
          inversion Hp; subst; split; reflexivity.
      * exists []. rewrite log_main_nil.
        destruct v; unfold py_in, ret, raise in Hp; try discriminate;
          inversion Hp; subst; split; reflexivity.
      * exists []. rewrite log_main_nil.
        destruct v; unfold py_in, ret, raise in Hp; try discriminate;
          inversion Hp; subst; split; reflexivity.
      * destruct v; unfold py_in, ret, raise in Hp; discriminate.
  - exists []. rewrite (load_existing_tokens_absent w Hf), log_main_nil. split; reflexivity.
Qed.

(** *** [get_tokens] in two steps *)

Lemma get_tokens_unfold (cfg : config) (net : provider) (fuel : nat) (w : world) :
  get_tokens cfg net fuel w =
    match load_existing_tokens w with
    | (Done true, w') => (Done tt, w')
    | (Done false, w') => consent cfg net fuel w'
    | (Raised e, w') => (Raised e, w')
    | (Waiting, w') => (Waiting, w')
    end.
Proof.
  unfold get_tokens, consent, exchange, bind at 1.
  destruct (load_existing_tokens w) as [[[|]|e|] w']; reflexivity.
Qed.

Lemma consent_unfold (cfg : config) (net : provider) (fuel : nat) (w : world) :
  consent cfg net fuel w =
    bind (busy_wait fuel) (exchange cfg net) (consent_opened cfg w).
Proof. reflexivity. Qed.

(** *** The polling loop *)

(** Nothing is on its way: the loop sleeps through all its fuel and changes
    nothing. *)
Lemma busy_wait_idle (fuel : nat) (w : world) :
  auth_code w = None -> inbound w = None ->
  busy_wait fuel w = (Waiting, w).
Proof.
  intros Hc Hi. induction fuel as [|f IH]; simpl.
  - unfold listener_progress. rewrite Hi.
    destruct (listener w); rewrite Hc; reflexivity.
  - unfold listener_progress. rewrite Hi.
    assert (Hs : sleep w = w) by (unfold sleep; rewrite Hi; reflexivity).
    destruct (listener w); rewrite Hc, Hs; exact IH.
Qed.

(** The redirect carries a code and arrives within the fuel: the loop ends
    with the stripped code, the listener has answered 200 and is gone. *)
Lemma busy_wait_code (k : nat) :
  forall (fuel : nat) (f : files) (ml ll : list event) (path v : string) (vs : list string),
    (k <= fuel)%nat ->
    code_of path = Some (v :: vs) ->
    busy_wait fuel (mkWorld f None Listening (Some (k, path)) ml ll) =
      (Done (strip v),
       mkWorld f (Some (strip v)) Finished None ml
         (ll ++ [Reply 200 "Authorization successful! You can close this tab.";
                 Print ("✅ Authorization Code Captured: " ++ strip v)])%list).
Proof.
  induction k as [|k IH]; intros fuel f ml ll path v vs Hk Hq.
  - destruct fuel; simpl; unfold listener_progress, do_GET; simpl;
      unfold code_of in Hq; rewrite Hq; reflexivity.
  - destruct fuel as [|fuel]; [lia|].
    simpl. apply (IH fuel f ml ll path v vs); [lia | exact Hq].
Qed.

(** The redirect carries no code: the listener answers 400 once the request
    is in, and the loop is still polling whatever the fuel. *)
Lemma busy_wait_no_code (k : nat) :
  forall (fuel : nat) (f : files) (ml ll : list event) (path : string),
    code_of path = None ->
    busy_wait fuel (mkWorld f None Listening (Some (k, path)) ml ll) =
      (Waiting,
       if (k <=? fuel)%nat
       then mkWorld f None Finished None ml
              (ll ++ [Reply 400 "Error: Authorization code not found."])%list
       else mkWorld f None Listening (Some ((k - fuel)%nat, path)) ml ll).
Proof.
  induction k as [|k IH]; intros fuel f ml ll path Hq.
  - replace (0 <=? fuel)%nat with true by reflexivity.
    destruct fuel; simpl; unfold listener_progress, do_GET; simpl;
      unfold code_of in Hq; rewrite Hq; simpl; [reflexivity|].
    apply busy_wait_idle; reflexivity.
  - destruct fuel as [|fuel]; [reflexivity|].
    simpl. exact (IH fuel f ml ll path Hq).
Qed.

(** *** A run from the start of the process *)

Lemma get_tokens_start (f : files) (r : option (nat * string)) :
  fst (load_existing_tokens (start f r)) = Done false ->
  exists es,
    network_events es = [] /\
    forall cfg net fuel,
      get_tokens cfg net fuel (start f r) =
        bind (busy_wait fuel) (exchange cfg net)
          (mkWorld f None Listening r
             (es ++ [Print "🌍 Opening Reddit authorization page in your browser...";
                     BrowserOpen (authorization_url cfg)])%list
             [Print "🌍 Waiting for authorization..."]).
Proof.
  intros H. destruct (load_existing_tokens_frame (start f r)) as [es [Hw Hn]].
  exists es. split; [exact Hn|]. intros cfg net fuel.
  rewrite get_tokens_unfold.
  destruct (load_existing_tokens (start f r)) as [res w'] eqn:Hl.
  simpl in H, Hw. subst res w'.
  rewrite consent_unfold. unfold consent_opened, log_main, log_listener, set_listener, start.
  simpl. rewrite <- app_assoc. reflexivity.
Qed.

Lemma network_events_app (l1 l2 : list event) :
  network_events (l1 ++ l2) = (network_events l1 ++ network_events l2)%list.
Proof. apply filter_app. Qed.

Lemma network_events_post (cfg : config) (code : string) (rest : list event) :
  network_events (post_event cfg code :: rest) = post_event cfg code :: network_events rest.
Proof. reflexivity. Qed.

(** A stored record with the key: the run ends right after the check. *)
Lemma get_tokens_skips (cfg : config) (net : provider) (fuel : nat) (w : world)
      (bytes : string) (d : dict) :
  fs w TOKEN_FILE = Some bytes ->
  load_bytes bytes = inr (JObject d) ->
  dict_has "refresh_token" d = true ->
  get_tokens cfg net fuel w =
    (Done tt,
     log_main [Print "✅ Refresh token already exists. No need to re-authenticate."] w).
Proof.
  intros Hf Hv Hk. rewrite get_tokens_unfold.
  rewrite (load_existing_tokens_object w bytes d Hf Hv), Hk. reflexivity.
Qed.

(** *** The token exchange, case by case *)

Section Exchange.
Variables (cfg : config) (net : provider) (code : string).
Variables (f : files) (ac : option string) (l : listener_state)
          (ib : option (nat * string)) (ml ll : list event).

Let w := mkWorld f ac l ib ml ll.

Lemma exchange_transport :
  net (token_request cfg code) = None ->
  exchange cfg net code w =
    (Raised ConnectionError,
     mkWorld f ac l ib (ml ++ [post_event cfg code])%list ll).
Proof.
  intros Hn. unfold exchange, bind, requests_post. rewrite Hn. reflexivity.
Qed.

Lemma exchange_failed (rsp : response) :
  net (token_request cfg code) = Some rsp ->
  Z.eqb (status_code rsp) 200 = false ->
  exchange cfg net code w =
    (Done tt,
     mkWorld f ac l ib (ml ++ post_event cfg code :: failure_report rsp)%list ll).
Proof.
  intros Hn Hs. unfold exchange, bind, requests_post, failure_report.
  rewrite Hn, Hs. unfold print, modify, ret, log_main, w. cbn [fst snd main_log fs
    auth_code listener inbound listener_log].
  destruct (Z.eqb (status_code rsp) 401);
    cbn [fst snd main_log fs auth_code listener inbound listener_log];
    rewrite <- !app_assoc; reflexivity.
Qed.

Lemma exchange_no_json (rsp : response) :
  net (token_request cfg code) = Some rsp ->
  Z.eqb (status_code rsp) 200 = true ->
  loads (text rsp) = None ->
  exchange cfg net code w =
    (Raised JSONDecodeError,
     mkWorld f ac l ib (ml ++ [post_event cfg code])%list ll).
Proof.
  intros Hn Hs Hj. unfold exchange, bind, requests_post, response_json.
  rewrite Hn, Hs, Hj. reflexivity.
Qed.

Lemma exchange_not_object (rsp : response) (v : json) :
  net (token_request cfg code) = Some rsp ->
  Z.eqb (status_code rsp) 200 = true ->
  loads (text rsp) = Some v ->
  (forall d, v <> JObject d) ->
  exchange cfg net code w =
    (Raised TypeError,
     mkWorld f ac l ib (ml ++ [post_event cfg code])%list ll).
Proof.
  intros Hn Hs Hj Hv. unfold exchange, bind, requests_post, response_json.
  rewrite Hn, Hs, Hj.
  destruct v; try reflexivity. exfalso. apply (Hv kvs). reflexivity.
Qed.

Lemma exchange_missing_key (rsp : response) (d : dict) :
  net (token_request cfg code) = Some rsp ->
  Z.eqb (status_code rsp) 200 = true ->
  loads (text rsp) = Some (JObject d) ->
  dict_get "refresh_token" d = None ->
  exchange cfg net code w =
    (Raised (KeyError "refresh_token"),
     mkWorld f ac l ib (ml ++ [post_event cfg code])%list ll).
Proof.
  intros Hn Hs Hj Hk. unfold exchange, bind, requests_post, response_json, py_getitem.
  rewrite Hn, Hs, Hj. unfold ret. cbv beta iota. rewrite Hk. reflexivity.
Qed.

Lemma exchange_persists (rsp : response) (d : dict) (v : json) :
  net (token_request cfg code) = Some rsp ->
  Z.eqb (status_code rsp) 200 = true ->
  loads (text rsp) = Some (JObject d) ->
  dict_get "refresh_token" d = Some v ->
  exchange cfg net code w =
    (Done tt,
     mkWorld (write_to TOKEN_FILE (dumps (JObject [("refresh_token", v)])) f) ac l ib
       (ml ++ [post_event cfg code; Print "✅ Refresh token saved in tokens.json"])%list ll).
Proof.
  intros Hn Hs Hj Hk. unfold exchange, bind, requests_post, response_json, py_getitem.
  rewrite Hn, Hs, Hj. unfold ret. cbv beta iota. rewrite Hk.
  unfold json_dump, print, modify, log_main, set_fs, w.
  cbn [fst snd main_log fs auth_code listener inbound listener_log].
  rewrite <- app_assoc. reflexivity.
Qed.

(** Whatever the provider answers, the exchange sends exactly one POST and
    nothing else to the network, and leaves the handoff and the listener
    alone. *)
Lemma exchange_frame :
  exists rest f',
    snd (exchange cfg net code w) =
      mkWorld f' ac l ib (ml ++ post_event cfg code :: rest)%list ll /\
    network_events rest = [].
Proof.
  destruct (net (token_request cfg code)) as [rsp|] eqn:Hn.
  - destruct (Z.eqb (status_code rsp) 200) eqn:Hs.
    + destruct (loads (text rsp)) as [v|] eqn:Hj.
      * destruct v as [| | | | | |d].
        7: { destruct (dict_get "refresh_token" d) as [v|] eqn:Hk.
             - rewrite (exchange_persists rsp d v Hn Hs Hj Hk).
               eexists; eexists; split; reflexivity.
             - rewrite (exchange_missing_key rsp d Hn Hs Hj Hk).
               eexists; eexists; split; reflexivity. }
        all: rewrite (exchange_not_object rsp _ Hn Hs Hj ltac:(intros; discriminate));
          eexists; eexists; split; reflexivity.
      * rewrite (exchange_no_json rsp Hn Hs Hj).
        eexists; eexists; split; reflexivity.
    + rewrite (exchange_failed rsp Hn Hs).
      exists (failure_report rsp), f. split; [reflexivity|].
      unfold failure_report. destruct (Z.eqb (status_code rsp) 401); reflexivity.
  - rewrite (exchange_transport Hn). eexists; eexists; split; reflexivity.
Qed.

End Exchange.

(** *** The whole flow *)

Lemma load_existing_tokens_reads_files (w1 w2 : world) :
  fs w1 = fs w2 ->
  fst (load_existing_tokens w1) = fst (load_existing_tokens w2).
Proof.
  intros H.
  destruct (fs w1 TOKEN_FILE) as [bytes|] eqn:Hf.
  - assert (Hf2 : fs w2 TOKEN_FILE = Some bytes) by (rewrite <- H; exact Hf).
    destruct (load_bytes bytes) as [e|v] eqn:Hv.
    + rewrite (load_existing_tokens_undecodable w1 bytes e Hf Hv),
              (load_existing_tokens_undecodable w2 bytes e Hf2 Hv). reflexivity.
    + rewrite (load_existing_tokens_decoded w1 bytes v Hf Hv),
              (load_existing_tokens_decoded w2 bytes v Hf2 Hv).
      destruct v; unfold py_in, ret, raise; try reflexivity.
      * destruct (contains "refresh_token" s); reflexivity.
      * match goal with |- context [List.existsb ?g ?xs] => destruct (List.existsb g xs) end;
          reflexivity.
      * destruct (dict_has "refresh_token" kvs); reflexivity.
  - assert (Hf2 : fs w2 TOKEN_FILE = None) by (rewrite <- H; exact Hf).
    rewrite (load_existing_tokens_absent w1 Hf), (load_existing_tokens_absent w2 Hf2).
    reflexivity.
Qed.

(** The redirect carries a code and arrives within the fuel: the run is the
    token exchange in the world that the listener leaves behind. *)
Lemma get_tokens_with_code (f : files) (k : nat) (path v : string) (vs : list string) :
  fst (load_existing_tokens (start f (Some (k, path)))) = Done false ->
  code_of path = Some (v :: vs) ->
  exists es,
    network_events es = [] /\
    forall cfg net fuel,
      (k <= fuel)%nat ->
      get_tokens cfg net fuel (start f (Some (k, path))) =
        exchange cfg net (strip v)
          (mkWorld f (Some (strip v)) Finished None
             (es ++ [Print "🌍 Opening Reddit authorization page in your browser...";
                     BrowserOpen (authorization_url cfg)])%list
             [Print "🌍 Waiting for authorization...";
              Reply 200 "Authorization successful! You can close this tab.";
              Print ("✅ Authorization Code Captured: " ++ strip v)]).
Proof.
  intros Hs Hq. destruct (get_tokens_start f (Some (k, path)) Hs) as [es [Hn Hrun]].
  exists es. split; [exact Hn|]. intros cfg net fuel Hk.
  rewrite Hrun. unfold bind.
  rewrite (busy_wait_code k fuel f _ _ path v vs Hk Hq). reflexivity.
Qed.

(** The redirect carries no code: the run is still polling, whatever the
    fuel, in the world that [busy_wait_no_code] describes. *)
Lemma get_tokens_without_code (f : files) (k : nat) (path : string) :
  fst (load_existing_tokens (start f (Some (k, path)))) = Done false ->
  code_of path = None ->
  exists es,
    network_events es = [] /\
    forall cfg net fuel,
      get_tokens cfg net fuel (start f (Some (k, path))) =
        (Waiting,
         if (k <=? fuel)%nat
         then mkWorld f None Finished None
                (es ++ [Print "🌍 Opening Reddit authorization page in your browser...";
                        BrowserOpen (authorization_url cfg)])%list
                [Print "🌍 Waiting for authorization...";
                 Reply 400 "Error: Authorization code not found."]
         else mkWorld f None Listening (Some ((k - fuel)%nat, path))
                (es ++ [Print "🌍 Opening Reddit authorization page in your browser...";
                        BrowserOpen (authorization_url cfg)])%list
                [Print "🌍 Waiting for authorization..."]).
Proof.
  intros Hs Hq. destruct (get_tokens_start f (Some (k, path)) Hs) as [es [Hn Hrun]].
  exists es. split; [exact Hn|]. intros cfg net fuel.
  rewrite Hrun. unfold bind.
  rewrite (busy_wait_no_code k fuel f _ _ path Hq). reflexivity.
Qed.

(** No redirect at all: the run is still polling, whatever the fuel, with
    the listener blocked in [handle_request]. *)
Lemma get_tokens_without_redirect (f : files) :
  fst (load_existing_tokens (start f None)) = Done false ->
  exists es,
    network_events es = [] /\
    forall cfg net fuel,
      get_tokens cfg net fuel (start f None) =
        (Waiting,
         mkWorld f None Listening None
           (es ++ [Print "🌍 Opening Reddit authorization page in your browser...";
                   BrowserOpen (authorization_url cfg)])%list
           [Print "🌍 Waiting for authorization..."]).
Proof.
  intros Hs. destruct (get_tokens_start f None Hs) as [es [Hn Hrun]].
  exists es. split; [exact Hn|]. intros cfg net fuel.
  rewrite Hrun. unfold bind.
  rewrite busy_wait_idle; reflexivity.
Qed.

(** **** C1 *)

(** C1. Idempotence.  When the token file holds a record that decodes to a
    JSON object with a [refresh_token] key, every run of [get_tokens], the
    first and each one after any number of earlier runs, returns right after
    the store check: the files are the same as before, no browser is opened
    and no POST is sent, and the listener is never started. *)
Theorem get_tokens_idempotent (cfg : config) (net : provider) (fuel : nat) (w : world)
        (bytes : string) (d : dict) (n : nat) :
  fs w TOKEN_FILE = Some bytes ->
  load_bytes bytes = inr (JObject d) ->
  dict_has "refresh_token" d = true ->
  let before := after_runs cfg net fuel n w in
  let run := get_tokens cfg net fuel before in
  fst run = Done tt /\
  fs (snd run) = fs w /\
  network_events (main_log (snd run)) = network_events (main_log w) /\
  listener (snd run) = listener w /\
  listener_log (snd run) = listener_log w /\
  auth_code (snd run) = auth_code w.
Proof.
  intros Hf Hv Hk. revert w Hf.
  induction n as [|n IH]; intros w Hf; simpl.
  - rewrite (get_tokens_skips cfg net fuel w bytes d Hf Hv Hk). simpl.
    rewrite network_events_app. simpl. rewrite app_nil_r. repeat split; reflexivity.
  - rewrite (get_tokens_skips cfg net fuel w bytes d Hf Hv Hk). simpl.
    set (w1 := log_main _ w).
    assert (Hf1 : fs w1 TOKEN_FILE = Some bytes) by exact Hf.
    specialize (IH w1 Hf1). simpl in IH.
    destruct IH as (H1 & H2 & H3 & H4 & H5 & H6).
    repeat split; try assumption.
    rewrite H3. unfold w1. simpl. rewrite network_events_app. simpl. apply app_nil_r.
Qed.

Lemma get_tokens_idempotent_witness :
  let w := start (dir_with record_r_xyz) (Some (0%nat, redirect_code)) in
  let run := get_tokens (load_config env_ok) (answers 200 body_tokens) 5
               (after_runs (load_config env_ok) (answers 200 body_tokens) 5 3 w) in
  fst run = Done tt /\
  fs (snd run) = fs w /\
  network_events (main_log (snd run)) = network_events (main_log w) /\
  listener (snd run) = listener w /\
  listener_log (snd run) = listener_log w /\
  auth_code (snd run) = auth_code w.
Proof.
  apply (get_tokens_idempotent (load_config env_ok) (answers 200 body_tokens) 5
           (start (dir_with record_r_xyz) (Some (0%nat, redirect_code)))
           record_r_xyz [("refresh_token", JString "r_xyz")] 3);
    vm_compute; reflexivity.
Defined.

(** **** C2 *)

(** C2, as the claim words it, does not hold: for the record whose
    [refresh_token] is the empty string the store check answers [True]. *)
Lemma load_existing_tokens_accepts_empty_token :
  fst (load_existing_tokens (start (dir_with record_empty_token) None)) = Done true /\
  load_bytes record_empty_token = inr (JObject [("refresh_token", JString EmptyString)]).
Proof. split; vm_compute; reflexivity. Qed.

(** C2, amended.  For a token file that is absent, does not decode, or
    decodes to a JSON object, [load_existing_tokens] returns [True] exactly
    when the record exists, decodes to an object and the object has a
    [refresh_token] key, whatever the value under the key (the empty string
    included); it changes no file. *)
Theorem load_existing_tokens_key_presence (w : world) :
  non_object_document (fs w TOKEN_FILE) = false ->
  fst (load_existing_tokens w) = Done (record_has_refresh_token (fs w TOKEN_FILE)) /\
  fs (snd (load_existing_tokens w)) = fs w.
Proof.
  unfold non_object_document, record_has_refresh_token. intros H.
  destruct (fs w TOKEN_FILE) as [bytes|] eqn:Hf.
  - destruct (load_bytes bytes) as [e|v] eqn:Hv.
    + rewrite (load_existing_tokens_undecodable w bytes e Hf Hv). split; reflexivity.
    + destruct v; try discriminate.
      rewrite (load_existing_tokens_object w bytes kvs Hf Hv).
      destruct (dict_has "refresh_token" kvs); split; reflexivity.
  - rewrite (load_existing_tokens_absent w Hf). split; reflexivity.
Qed.

Lemma load_existing_tokens_key_presence_witness :
  fst (load_existing_tokens (start (dir_with record_empty_token) None)) =
    Done (record_has_refresh_token (Some record_empty_token)) /\
  fs (snd (load_existing_tokens (start (dir_with record_empty_token) None))) =
    dir_with record_empty_token.
Proof.
  apply (load_existing_tokens_key_presence (start (dir_with record_empty_token) None)).
  vm_compute. reflexivity.
Defined.

(** **** C3 *)

(** What C3 asks for and the code does: a record that does not decode, or
    that decodes to an object without the key, counts as absent. *)
Lemma load_existing_tokens_malformed (w : world) (bytes : string) :
  fs w TOKEN_FILE = Some bytes ->
  (exists e, load_bytes bytes = inl e) \/
  (exists d, load_bytes bytes = inr (JObject d) /\ dict_has "refresh_token" d = false) ->
  fst (load_existing_tokens w) = Done false.
Proof.
  intros Hf [[e He] | [d [Hd Hk]]].
  - rewrite (load_existing_tokens_undecodable w bytes e Hf He). reflexivity.
  - rewrite (load_existing_tokens_object w bytes d Hf Hd), Hk. reflexivity.
Qed.

(** C3 fails on the code.  A token file that holds [null] is valid JSON
    without a [refresh_token] field: the membership test raises [TypeError],
    which the [except] clause does not list, so the exception leaves
    [load_existing_tokens] and [get_tokens].  A token file that holds the
    list with the one string [refresh_token] has no such field either, and
    the check answers [True].  The truncated record is handled. *)
Theorem load_existing_tokens_non_object_record :
  load_bytes record_null = inr JNull /\
  fst (load_existing_tokens (start (dir_with record_null) None)) = Raised TypeError /\
  fst (get_tokens (load_config env_ok) (answers 200 body_tokens) 5
         (start (dir_with record_null) (Some (0%nat, redirect_code)))) = Raised TypeError /\
  load_bytes record_list = inr (JArray [JString "refresh_token"]) /\
  fst (load_existing_tokens (start (dir_with record_list) None)) = Done true /\
  fst (load_existing_tokens (start (dir_with record_truncated) None)) = Done false.
Proof. repeat split; vm_compute; reflexivity. Qed.

(** **** C4 *)

(** C4, as the claim words it, does not hold: for the redirect
    [/?error=access_denied] the listener answers 400 and ends, but the flow
    resolves nothing: [get_tokens] is still polling whatever the fuel. *)
Lemma denied_redirect_never_resolves :
  code_of redirect_denied = None /\
  hangs (fun fuel =>
           get_tokens (load_config env_ok) (answers 200 body_tokens) fuel
             (start empty_dir (Some (2%nat, redirect_denied)))) /\
  listener_log
    (snd (get_tokens (load_config env_ok) (answers 200 body_tokens) 5
            (start empty_dir (Some (2%nat, redirect_denied))))) =
    [Print "🌍 Waiting for authorization...";
     Reply 400 "Error: Authorization code not found."].
Proof.
  split; [vm_compute; reflexivity|]. split; [|vm_compute; reflexivity].
  assert (Hs : fst (load_existing_tokens (start empty_dir (Some (2%nat, redirect_denied))))
               = Done false) by (vm_compute; reflexivity).
  assert (Hq : code_of redirect_denied = None) by (vm_compute; reflexivity).
  destruct (get_tokens_without_code _ _ _ Hs Hq) as [es [_ Hrun]].
  intros fuel. rewrite Hrun. reflexivity.
Qed.

(** C4, amended.  For every redirect whose query has no [code] parameter the
    listener answers 400 and ends, the authorization code stays unset, and
    the flow does not resolve: [get_tokens] keeps polling for ever, with no
    failure raised and no token request sent.  For the redirect
    [/?code=abc123&state=RANDOM_STRING] the listener answers 200, hands over
    the code [abc123] and ends, and the flow goes on to the token exchange
    with that code. *)
Theorem callback_listener_handoff (cfg : config) (net : provider) (f : files)
        (k : nat) (path : string) :
  fst (load_existing_tokens (start f (Some (k, path)))) = Done false ->
  code_of path = None ->
  hangs (fun fuel => get_tokens cfg net fuel (start f (Some (k, path)))) /\
  (forall fuel, (k <= fuel)%nat ->
     let w' := snd (get_tokens cfg net fuel (start f (Some (k, path)))) in
     listener_log w' =
       [Print "🌍 Waiting for authorization...";
        Reply 400 "Error: Authorization code not found."] /\
     listener w' = Finished /\
     auth_code w' = None /\
     network_events (main_log w') = [BrowserOpen (authorization_url cfg)] /\
     fs w' = f) /\
  (forall k' fuel, (k' <= fuel)%nat ->
     let w' := snd (get_tokens cfg net fuel (start f (Some (k', redirect_code)))) in
     listener_log w' =
       [Print "🌍 Waiting for authorization...";
        Reply 200 "Authorization successful! You can close this tab.";
        Print "✅ Authorization Code Captured: abc123"] /\
     listener w' = Finished /\
     auth_code w' = Some "abc123" /\
     network_events (main_log w') =
       [BrowserOpen (authorization_url cfg); post_event cfg "abc123"]).
Proof.
  intros Hs Hq. split; [|split].
  - destruct (get_tokens_without_code f k path Hs Hq) as [es [_ Hrun]].
    intros fuel. rewrite Hrun. reflexivity.
  - destruct (get_tokens_without_code f k path Hs Hq) as [es [Hn Hrun]].
    intros fuel Hk. rewrite Hrun.
    apply Nat.leb_le in Hk. rewrite Hk. simpl.
    repeat split.
    rewrite network_events_app, Hn. reflexivity.
  - intros k' fuel Hk.
    assert (Hs' : fst (load_existing_tokens (start f (Some (k', redirect_code)))) = Done false).
    { rewrite <- Hs. apply load_existing_tokens_reads_files. reflexivity. }
    assert (Hc : code_of redirect_code = Some ["abc123"]) by (vm_compute; reflexivity).
    destruct (get_tokens_with_code f k' redirect_code "abc123" [] Hs' Hc) as [es [Hn Hrun]].
    rewrite (Hrun cfg net fuel Hk).
    replace (strip "abc123") with "abc123" by (vm_compute; reflexivity).
    match goal with
    | |- context [exchange cfg net ?c (mkWorld ?f0 ?ac ?l ?ib ?ml ?ll)] =>
        destruct (exchange_frame cfg net c f0 ac l ib ml ll) as [rest [f' [Hw Hr]]]
    end.
    cbv zeta. rewrite Hw. simpl. repeat split.
    rewrite !network_events_app, Hn, network_events_post, Hr. reflexivity.
Qed.

Lemma callback_listener_handoff_witness :
  hangs (fun fuel =>
           get_tokens (load_config env_ok) (answers 401 body_invalid_grant) fuel
             (start empty_dir (Some (3%nat, redirect_denied)))) /\
  (forall fuel, (3 <= fuel)%nat ->
     let w' := snd (get_tokens (load_config env_ok) (answers 401 body_invalid_grant) fuel
                      (start empty_dir (Some (3%nat, redirect_denied)))) in
     listener_log w' =
       [Print "🌍 Waiting for authorization...";
        Reply 400 "Error: Authorization code not found."] /\
     listener w' = Finished /\
     auth_code w' = None /\
     network_events (main_log w') = [BrowserOpen (authorization_url (load_config env_ok))] /\
     fs w' = empty_dir) /\
  (forall k' fuel, (k' <= fuel)%nat ->
     let w' := snd (get_tokens (load_config env_ok) (answers 401 body_invalid_grant) fuel
                      (start empty_dir (Some (k', redirect_code)))) in
     listener_log w' =
       [Print "🌍 Waiting for authorization...";
        Reply 200 "Authorization successful! You can close this tab.";
        Print "✅ Authorization Code Captured: abc123"] /\
     listener w' = Finished /\
     auth_code w' = Some "abc123" /\
     network_events (main_log w') =
       [BrowserOpen (authorization_url (load_config env_ok));
        post_event (load_config env_ok) "abc123"]).
Proof.
  apply (callback_listener_handoff (load_config env_ok) (answers 401 body_invalid_grant)
           empty_dir 3 redirect_denied); vm_compute; reflexivity.
Defined.

(** **** C5 *)

(** C5, as the claim words it, does not hold: with no redirect the run has no
    window after which it gives up; it is still polling whatever the fuel,
    and the listener is still blocked in [handle_request]. *)
Lemma no_redirect_never_times_out :
  hangs (fun fuel =>
           get_tokens (load_config env_ok) (answers 200 body_tokens) fuel
             (start empty_dir None)) /\
  listener
    (snd (get_tokens (load_config env_ok) (answers 200 body_tokens) 1000
            (start empty_dir None))) = Listening.
Proof.
  split; [|vm_compute; reflexivity].
  assert (Hs : fst (load_existing_tokens (start empty_dir None)) = Done false)
    by (vm_compute; reflexivity).
  destruct (get_tokens_without_redirect _ Hs) as [es [_ Hrun]].
  intros fuel. rewrite Hrun. reflexivity.
Qed.

(** C5, amended.  There is no timeout.  If no redirect ever arrives, the
    flow does not terminate: [get_tokens] polls the handoff for ever, the
    listener stays blocked in [handle_request], the authorization page has
    been opened, no token request is sent and no file is written. *)
Theorem no_redirect_waits_forever (cfg : config) (net : provider) (f : files) :
  fst (load_existing_tokens (start f None)) = Done false ->
  hangs (fun fuel => get_tokens cfg net fuel (start f None)) /\
  (forall fuel,
     let w' := snd (get_tokens cfg net fuel (start f None)) in
     listener w' = Listening /\
     auth_code w' = None /\
     network_events (main_log w') = [BrowserOpen (authorization_url cfg)] /\
     fs w' = f).
Proof.
  intros Hs. destruct (get_tokens_without_redirect f Hs) as [es [Hn Hrun]].
  split.
  - intros fuel. rewrite Hrun. reflexivity.
  - intros fuel. rewrite Hrun. simpl. repeat split.
    rewrite network_events_app, Hn. reflexivity.
Qed.

Lemma no_redirect_waits_forever_witness :
  hangs (fun fuel =>
           get_tokens (load_config env_ok) (answers 401 body_invalid_grant) fuel
             (start (dir_with record_truncated) None)) /\
  (forall fuel,
     let w' := snd (get_tokens (load_config env_ok) (answers 401 body_invalid_grant) fuel
                      (start (dir_with record_truncated) None)) in
     listener w' = Listening /\
     auth_code w' = None /\
     network_events (main_log w') = [BrowserOpen (authorization_url (load_config env_ok))] /\
     fs w' = dir_with record_truncated).
Proof.
  apply (no_redirect_waits_forever (load_config env_ok) (answers 401 body_invalid_grant)
           (dir_with record_truncated)).
  vm_compute. reflexivity.
Defined.

(** *** Facts shared by the claims on the exchange *)

Lemma append_assoc (a b c : string) : (a ++ b) ++ c = a ++ b ++ c.
Proof. induction a as [|x a IH]; simpl; [reflexivity | rewrite IH; reflexivity]. Qed.

Lemma append_nil_r' (s : string) : s ++ EmptyString = s.
Proof. induction s as [|c s IH]; simpl; [reflexivity | rewrite IH; reflexivity]. Qed.

Lemma browser_urls_app (l1 l2 : list event) :
  browser_urls (l1 ++ l2) = (browser_urls l1 ++ browser_urls l2)%list.
Proof. apply flat_map_app. Qed.

Lemma browser_urls_quiet (l : list event) :
  network_events l = [] -> browser_urls l = [].
Proof.
  induction l as [|e l IH]; [reflexivity|].
  destruct e; simpl; intros H; try discriminate; apply IH; exact H.
Qed.

Lemma listener_progress_frame (w : world) :
  fs (listener_progress w) = fs w /\ main_log (listener_progress w) = main_log w.
Proof.
  unfold listener_progress.
  destruct (listener w); try (split; reflexivity).
  destruct (inbound w) as [[[|k] path]|]; try (split; reflexivity).
  unfold do_GET.
  destruct (qdict_get "code" (parse_qs (urlparse_query path))) as [[|v vs]|];
    split; reflexivity.
Qed.

(** The polling loop writes no file and adds nothing to the log of the main
    thread. *)
Lemma busy_wait_frame (fuel : nat) :
  forall w, fs (snd (busy_wait fuel w)) = fs w /\
            main_log (snd (busy_wait fuel w)) = main_log w.
Proof.
  induction fuel as [|fuel IH]; intros w; simpl;
    destruct (listener_progress_frame w) as [Hf Hm];
    destruct (auth_code (listener_progress w)); simpl; try (split; assumption).
  destruct (IH (sleep (listener_progress w))) as [Hf' Hm'].
  rewrite Hf', Hm'.
  unfold sleep. destruct (inbound (listener_progress w)) as [[[|k] path]|];
    split; assumption.
Qed.

(** Whatever the redirect and the provider do, a run that passes the store
    check opens the browser once, on [authorization_url cfg]. *)
Lemma get_tokens_opens_once (cfg : config) (net : provider) (fuel : nat)
      (f : files) (r : option (nat * string)) :
  fst (load_existing_tokens (start f r)) = Done false ->
  browser_urls (main_log (snd (get_tokens cfg net fuel (start f r)))) =
    [authorization_url cfg].
Proof.
  intros Hs. destruct (get_tokens_start f r Hs) as [es [Hn Hrun]].
  rewrite Hrun. unfold bind.
  match goal with |- context [busy_wait fuel ?W] => set (w0 := W) end.
  destruct (busy_wait_frame fuel w0) as [_ Hm].
  assert (Hb : browser_urls (main_log w0) = [authorization_url cfg]).
  { unfold w0. simpl. rewrite browser_urls_app, (browser_urls_quiet es Hn). reflexivity. }
  destruct (busy_wait fuel w0) as [[c|e|] w1]; cbn [fst snd] in Hm |- *;
    try (rewrite Hm; exact Hb).
  destruct w1 as [f1 ac1 l1 ib1 ml1 ll1]. cbn [main_log] in Hm.
  destruct (exchange_frame cfg net c f1 ac1 l1 ib1 ml1 ll1)
    as [rest [f' [Hw Hr]]].
  rewrite Hw. cbn [main_log]. rewrite browser_urls_app, Hm, Hb.
  change (browser_urls (post_event cfg c :: rest)) with (browser_urls rest).
  rewrite (browser_urls_quiet rest Hr). reflexivity.
Qed.

(** **** C6 *)

(** C6, as the claim words it, does not hold: with a blank CLIENT_ID and no
    USER_AGENT the run does not fail fast; it opens the authorization page,
    with nothing after [client_id=], and sends the token request. *)
Lemma blank_config_still_reaches_network :
  has_empty_field (load_config env_blank) = true /\
  get_tokens (load_config env_blank) (answers 401 body_invalid_grant) 5
    (start empty_dir (Some (1%nat, redirect_code))) =
  (Done tt,
   mkWorld empty_dir (Some "abc123") Finished None
     ([Print "🌍 Opening Reddit authorization page in your browser...";
       BrowserOpen ("https://www.reddit.com/api/v1/authorize?client_id=" ++
                    "&response_type=code&state=RANDOM_STRING" ++
                    "&redirect_uri=http://localhost:8080" ++
                    "&duration=permanent&scope=identity history read save");
       Post "https://www.reddit.com/api/v1/access_token"
         [("Authorization", "Basic Onh5eg==");
          ("User-Agent", EmptyString);
          ("Content-Type", "application/x-www-form-urlencoded")]
         [("grant_type", "authorization_code");
          ("code", "abc123");
          ("redirect_uri", "http://localhost:8080")];
       Print ("❌ Authentication failed: 401" ++ nl ++ "Error: invalid_grant")]
      ++ unauthorized_hints)%list
     [Print "🌍 Waiting for authorization...";
      Reply 200 "Authorization successful! You can close this tab.";
      Print "✅ Authorization Code Captured: abc123"]).
Proof. split; vm_compute; reflexivity. Qed.

(** C6, amended.  [get_tokens] checks no credential field.  With one or more
    of the four fields empty after stripping, a run that finds no stored
    record still opens the authorization URL built from the fields as they
    are and, once the redirect has delivered a code, sends the token-exchange
    POST built from them. *)
Theorem get_tokens_checks_no_field (env : environ) (net : provider) (f : files)
        (k fuel : nat) (path v : string) (vs : list string) :
  has_empty_field (load_config env) = true ->
  fst (load_existing_tokens (start f (Some (k, path)))) = Done false ->
  code_of path = Some (v :: vs) ->
  (k <= fuel)%nat ->
  network_events
    (main_log (snd (get_tokens (load_config env) net fuel (start f (Some (k, path)))))) =
    [BrowserOpen (authorization_url (load_config env));
     post_event (load_config env) (strip v)].
Proof.
  intros _ Hs Hq Hk.
  destruct (get_tokens_with_code f k path v vs Hs Hq) as [es [Hn Hrun]].
  rewrite (Hrun (load_config env) net fuel Hk).
  match goal with
  | |- context [exchange ?cfg net ?c (mkWorld ?f0 ?ac ?l ?ib ?ml ?ll)] =>
      destruct (exchange_frame cfg net c f0 ac l ib ml ll) as [rest [f' [Hw Hr]]]
  end.
  rewrite Hw. simpl.
  rewrite !network_events_app, Hn, network_events_post, Hr. reflexivity.
Qed.

Lemma get_tokens_checks_no_field_witness :
  network_events
    (main_log (snd (get_tokens (load_config env_blank) (answers 200 body_tokens) 4
                      (start empty_dir (Some (2%nat, redirect_code)))))) =
    [BrowserOpen (authorization_url (load_config env_blank));
     post_event (load_config env_blank) (strip "abc123")].
Proof.
  apply (get_tokens_checks_no_field env_blank (answers 200 body_tokens) empty_dir
           2 4 redirect_code "abc123" []).
  - vm_compute. reflexivity.
  - vm_compute. reflexivity.
  - vm_compute. reflexivity.
  - lia.
Defined.

(** **** C7 *)

(** C7, as the claim words it, does not hold: on a 200 answer whose body has
    no [refresh_token] the run ends with the interpreter's own [KeyError],
    raised by the subscript and caught nowhere, not with a failure that the
    script reports.  No file is written. *)
Lemma missing_refresh_token_raises_KeyError :
  loads body_no_refresh =
    Some (JObject [("access_token", JString "a_1"); ("expires_in", JInt 3600)]) /\
  fst (get_tokens (load_config env_ok) (answers 200 body_no_refresh) 5
         (start empty_dir (Some (1%nat, redirect_code)))) =
    Raised (KeyError "refresh_token") /\
  fs (snd (get_tokens (load_config env_ok) (answers 200 body_no_refresh) 5
             (start empty_dir (Some (1%nat, redirect_code))))) TOKEN_FILE = None /\
  main_log (snd (get_tokens (load_config env_ok) (answers 200 body_no_refresh) 5
                   (start empty_dir (Some (1%nat, redirect_code))))) =
    [Print "🌍 Opening Reddit authorization page in your browser...";
     BrowserOpen (authorization_url (load_config env_ok));
     post_event (load_config env_ok) "abc123"].
Proof. repeat split; vm_compute; reflexivity. Qed.

(** C7, amended.  For every token-exchange answer with status 200 whose body
    is a JSON object without a [refresh_token] member, [get_tokens] ends with
    an uncaught [KeyError] for that key: nothing is reported, and no record
    is persisted, the files being those of the start. *)
Theorem missing_refresh_token_persists_nothing (cfg : config) (net : provider) (f : files)
        (k fuel : nat) (path v : string) (vs : list string) (rsp : response) (d : dict) :
  fst (load_existing_tokens (start f (Some (k, path)))) = Done false ->
  code_of path = Some (v :: vs) ->
  (k <= fuel)%nat ->
  net (token_request cfg (strip v)) = Some rsp ->
  status_code rsp = 200%Z ->
  loads (text rsp) = Some (JObject d) ->
  dict_get "refresh_token" d = None ->
  fst (get_tokens cfg net fuel (start f (Some (k, path)))) = Raised (KeyError "refresh_token") /\
  fs (snd (get_tokens cfg net fuel (start f (Some (k, path))))) = f.
Proof.
  intros Hs Hq Hk Hn Hst Hj Hd.
  destruct (get_tokens_with_code f k path v vs Hs Hq) as [es [_ Hrun]].
  rewrite (Hrun cfg net fuel Hk).
  assert (Hst' : Z.eqb (status_code rsp) 200 = true) by (rewrite Hst; reflexivity).
  rewrite (exchange_missing_key cfg net (strip v) f _ _ _ _ _ rsp d Hn Hst' Hj Hd).
  split; reflexivity.
Qed.

Lemma missing_refresh_token_persists_nothing_witness :
  fst (get_tokens (load_config env_ok) (answers 200 body_no_refresh) 3
         (start (dir_with record_truncated) (Some (3%nat, redirect_code)))) =
    Raised (KeyError "refresh_token") /\
  fs (snd (get_tokens (load_config env_ok) (answers 200 body_no_refresh) 3
             (start (dir_with record_truncated) (Some (3%nat, redirect_code))))) =
    dir_with record_truncated.
Proof.
  apply (missing_refresh_token_persists_nothing (load_config env_ok)
           (answers 200 body_no_refresh) (dir_with record_truncated) 3 3
           redirect_code "abc123" [] (mkResponse 200 body_no_refresh)
           [("access_token", JString "a_1"); ("expires_in", JInt 3600)]).
  - vm_compute. reflexivity.
  - vm_compute. reflexivity.
  - lia.
  - reflexivity.
  - reflexivity.
  - vm_compute. reflexivity.
  - vm_compute. reflexivity.
Defined.

(** **** C8 *)

(** C8.  For every token-exchange answer whose status is not 200,
    [get_tokens] sends nothing but the one request, returns, and leaves the
    files as they were at the start, so that the token file is still absent
    or byte for byte what it was.  Its last output is the report of the
    failure: the line [Authentication failed:] with the status and a detail,
    followed, when and only when the status is 401, by the six lines on the
    common causes of 401 Unauthorized, spelled out below.  The detail is the
    [error] of the body, or [Unknown], and its [message] if it has one, when
    the body is a JSON object, and the raw body otherwise.  For the status
    401 with the body whose [error] is [invalid_grant] the report is the
    line with 401 and that error, and the six lines. *)
Theorem failed_exchange_keeps_record (cfg : config) (net : provider) (f : files)
        (k fuel : nat) (path v : string) (vs : list string) (rsp : response) :
  fst (load_existing_tokens (start f (Some (k, path)))) = Done false ->
  code_of path = Some (v :: vs) ->
  (k <= fuel)%nat ->
  net (token_request cfg (strip v)) = Some rsp ->
  status_code rsp <> 200%Z ->
  let run := get_tokens cfg net fuel (start f (Some (k, path))) in
  let causes_of_401 :=
    [Print (nl ++ "⚠️  Common causes of 401 Unauthorized:");
     Print "1. CLIENT_ID is incorrect (should be the ID under your app name)";
     Print "2. CLIENT_SECRET is incorrect";
     Print "3. Credentials have leading/trailing whitespace";
     Print "4. REDIRECT_URI doesn't match your Reddit app settings exactly";
     Print (nl ++ "💡 Run 'python validate_credentials.py' to test your credentials")] in
  fst run = Done tt /\
  fs (snd run) = f /\
  network_events (main_log (snd run)) =
    [BrowserOpen (authorization_url cfg);
     Post "https://www.reddit.com/api/v1/access_token"
       (post_headers (token_request cfg (strip v)))
       [("grant_type", "authorization_code"); ("code", strip v);
        ("redirect_uri", REDIRECT_URI cfg)]] /\
  (exists before detail,
     main_log (snd run) =
       (before ++
        Print ("❌ Authentication failed: " ++ str_of_Z (status_code rsp) ++ detail)
        :: (if Z.eqb (status_code rsp) 401 then causes_of_401 else []))%list /\
     detail =
       match loads (text rsp) with
       | Some (JObject body) =>
           nl ++ "Error: " ++
           match dict_get "error" body with
           | Some e => py_str e
           | None => "Unknown"
           end ++
           match dict_get "message" body with
           | Some m => nl ++ "Message: " ++ py_str m
           | None => EmptyString
           end
       | _ => nl ++ "Response: " ++ text rsp
       end) /\
  (status_code rsp = 401%Z -> text rsp = body_invalid_grant ->
   exists before,
     main_log (snd run) =
       (before ++
        Print ("❌ Authentication failed: 401" ++ nl ++ "Error: invalid_grant")
        :: causes_of_401)%list).
Proof.
  intros Hs Hq Hk Hn Hst.
  destruct (get_tokens_with_code f k path v vs Hs Hq) as [es [Hne Hrun]].
  cbv zeta. rewrite (Hrun cfg net fuel Hk).
  assert (Hst' : Z.eqb (status_code rsp) 200 = false) by (apply Z.eqb_neq; exact Hst).
  rewrite (exchange_failed cfg net (strip v) f _ _ _ _ _ rsp Hn Hst').
  cbn [fst snd fs main_log].
  split; [reflexivity|]. split; [reflexivity|]. split; [|split].
  - rewrite !network_events_app, Hne. unfold failure_report.
    destruct (Z.eqb (status_code rsp) 401); reflexivity.
  - match goal with
    | |- exists before detail, (?pre ++ ?p :: failure_report rsp)%list = _ /\ _ =>
        exists (pre ++ [p])%list, (error_detail rsp)
    end.
    split.
    + unfold failure_report, unauthorized_hints. rewrite <- !app_assoc. reflexivity.
    + unfold error_detail.
      destruct (loads (text rsp)) as [[| | | | | |body]|]; try reflexivity.
      destruct (dict_get "error" body) as [e|]; destruct (dict_get "message" body) as [m|];
        cbn [py_str]; rewrite ?append_assoc, ?append_nil_r'; reflexivity.
  - intros H401 Hb.
    match goal with
    | |- exists before, (?pre ++ ?p :: failure_report rsp)%list = _ =>
        exists (pre ++ [p])%list
    end.
    unfold failure_report, unauthorized_hints, error_detail.
    rewrite H401, Hb. rewrite <- !app_assoc. reflexivity.
Qed.

Lemma failed_exchange_keeps_record_witness :
  let run := get_tokens (load_config env_ok) (answers 401 body_invalid_grant) 7
               (start (dir_with record_truncated) (Some (2%nat, redirect_code))) in
  fst run = Done tt /\
  fs (snd run) = dir_with record_truncated /\
  main_log (snd run) =
    [Print "❌ Token file is corrupted. Re-authenticating...";
     Print "🌍 Opening Reddit authorization page in your browser...";
     BrowserOpen (authorization_url (load_config env_ok));
     post_event (load_config env_ok) "abc123";
     Print ("❌ Authentication failed: 401" ++ nl ++ "Error: invalid_grant");
     Print (nl ++ "⚠️  Common causes of 401 Unauthorized:");
     Print "1. CLIENT_ID is incorrect (should be the ID under your app name)";
     Print "2. CLIENT_SECRET is incorrect";
     Print "3. Credentials have leading/trailing whitespace";
     Print "4. REDIRECT_URI doesn't match your Reddit app settings exactly";
     Print (nl ++ "💡 Run 'python validate_credentials.py' to test your credentials")].
Proof.
  destruct (failed_exchange_keeps_record (load_config env_ok)
              (answers 401 body_invalid_grant) (dir_with record_truncated) 2 7
              redirect_code "abc123" [] (mkResponse 401 body_invalid_grant))
    as (Hdone & Hfiles & _).
  - vm_compute. reflexivity.
  - vm_compute. reflexivity.
  - lia.
  - reflexivity.
  - discriminate.
  - split; [exact Hdone|]. split; [exact Hfiles|]. vm_compute. reflexivity.
Defined.

(** **** C9 *)

(** C9.  For every token-exchange answer with status 200 whose body is a
    JSON object with [refresh_token] set to the string [r_xyz], whatever else
    the object holds, [get_tokens] returns and the token file holds exactly
    the one-member object with that member, as [json.dump] writes it: an
    opening brace, the quoted key, a colon and a space, the quoted token, a
    closing brace.  Every other file is as it was.  The same holds for any
    string token, written with the escapes of [json.dump]. *)
Theorem exchange_persists_refresh_token_only (cfg : config) (net : provider) (f : files)
        (k fuel : nat) (path v : string) (vs : list string) (rsp : response)
        (d : dict) (token : string) :
  fst (load_existing_tokens (start f (Some (k, path)))) = Done false ->
  code_of path = Some (v :: vs) ->
  (k <= fuel)%nat ->
  net (token_request cfg (strip v)) = Some rsp ->
  status_code rsp = 200%Z ->
  loads (text rsp) = Some (JObject d) ->
  dict_get "refresh_token" d = Some (JString token) ->
  let run := get_tokens cfg net fuel (start f (Some (k, path))) in
  fst run = Done tt /\
  fs (snd run) TOKEN_FILE =
    Some ("{" ++ quoted "refresh_token" ++ ": " ++ dumps_string token ++ "}") /\
  (forall p, p <> TOKEN_FILE -> fs (snd run) p = f p) /\
  (token = "r_xyz" ->
   fs (snd run) TOKEN_FILE = Some record_r_xyz /\
   load_bytes record_r_xyz = inr (JObject [("refresh_token", JString "r_xyz")])).
Proof.
  intros Hs Hq Hk Hn Hst Hj Hd.
  destruct (get_tokens_with_code f k path v vs Hs Hq) as [es [_ Hrun]].
  cbv zeta. rewrite (Hrun cfg net fuel Hk).
  assert (Hst' : Z.eqb (status_code rsp) 200 = true) by (rewrite Hst; reflexivity).
  rewrite (exchange_persists cfg net (strip v) f _ _ _ _ _ rsp d _ Hn Hst' Hj Hd).
  cbn [fst snd fs]. split; [reflexivity|]. split; [|split].
  - unfold write_to. rewrite String.eqb_refl. reflexivity.
  - intros p Hp. unfold write_to.
    apply String.eqb_neq in Hp. rewrite Hp. reflexivity.
  - intros ->. unfold write_to. rewrite String.eqb_refl.
    split; vm_compute; reflexivity.
Qed.

Lemma exchange_persists_refresh_token_only_witness :
  let run := get_tokens (load_config env_ok) (answers 200 body_tokens) 7
               (start empty_dir (Some (2%nat, redirect_code))) in
  fst run = Done tt /\
  fs (snd run) TOKEN_FILE =
    Some ("{" ++ quoted "refresh_token" ++ ": " ++ dumps_string "r_xyz" ++ "}") /\
  (forall p, p <> TOKEN_FILE -> fs (snd run) p = empty_dir p) /\
  ("r_xyz" = "r_xyz" ->
   fs (snd run) TOKEN_FILE = Some record_r_xyz /\
   load_bytes record_r_xyz = inr (JObject [("refresh_token", JString "r_xyz")])).
Proof.
  apply (exchange_persists_refresh_token_only (load_config env_ok) (answers 200 body_tokens)
           empty_dir 2 7 redirect_code "abc123" [] (mkResponse 200 body_tokens)
           [("refresh_token", JString "r_xyz"); ("access_token", JString "a_1");
            ("expires_in", JInt 3600)]
           "r_xyz").
  - vm_compute. reflexivity.
  - vm_compute. reflexivity.
  - lia.
  - reflexivity.
  - reflexivity.
  - vm_compute. reflexivity.
  - vm_compute. reflexivity.
Defined.

(** **** C10 *)

(** C10.  The [state] parameter of the authorization URL is the fixed text
    [RANDOM_STRING]: the URL is the [client_id] part, then
    [&state=RANDOM_STRING], then the [redirect_uri] part, it depends on the
    configuration alone, and any two runs with the same configuration that
    pass the store check, whatever their files, redirects, providers and
    fuel, open the browser once on that same URL. *)
Theorem state_token_is_constant (cfg : config) (net1 net2 : provider)
        (fuel1 fuel2 : nat) (f1 f2 : files) (r1 r2 : option (nat * string)) :
  fst (load_existing_tokens (start f1 r1)) = Done false ->
  fst (load_existing_tokens (start f2 r2)) = Done false ->
  browser_urls (main_log (snd (get_tokens cfg net1 fuel1 (start f1 r1)))) =
    [authorization_url cfg] /\
  browser_urls (main_log (snd (get_tokens cfg net2 fuel2 (start f2 r2)))) =
    [authorization_url cfg] /\
  authorization_url cfg =
    ("https://www.reddit.com/api/v1/authorize?client_id=" ++ CLIENT_ID cfg
       ++ "&response_type=code")
    ++ "&state=RANDOM_STRING"
    ++ ("&redirect_uri=" ++ REDIRECT_URI cfg
          ++ "&duration=permanent&scope=identity history read save").
Proof.
  intros H1 H2. split; [|split].
  - apply get_tokens_opens_once. exact H1.
  - apply get_tokens_opens_once. exact H2.
  - unfold authorization_url. rewrite !append_assoc. reflexivity.
Qed.

Lemma state_token_is_constant_witness :
  browser_urls
    (main_log (snd (get_tokens (load_config env_ok) (answers 200 body_tokens) 9
                      (start empty_dir (Some (4%nat, redirect_code)))))) =
    [authorization_url (load_config env_ok)] /\
  browser_urls
    (main_log (snd (get_tokens (load_config env_ok) (answers 401 body_invalid_grant) 2
                      (start (dir_with record_truncated) None)))) =
    [authorization_url (load_config env_ok)] /\
  authorization_url (load_config env_ok) =
    ("https://www.reddit.com/api/v1/authorize?client_id=" ++ CLIENT_ID (load_config env_ok)
       ++ "&response_type=code")
    ++ "&state=RANDOM_STRING"
    ++ ("&redirect_uri=" ++ REDIRECT_URI (load_config env_ok)
          ++ "&duration=permanent&scope=identity history read save").
Proof.
  apply (state_token_is_constant (load_config env_ok) (answers 200 body_tokens)
           (answers 401 body_invalid_grant) 9 2 empty_dir (dir_with record_truncated)
           (Some (4%nat, redirect_code)) None).
  - vm_compute. reflexivity.
  - vm_compute. reflexivity.
Defined.

End Properties.

(* ================================================================== *)
(** ** Further properties of the code *)

Module Extras.
Import Text Json Urllib Base64 Proc GenerateTokens Flow Runs Words.

(** *** [str.strip] *)

Lemma append_nil_r (s : string) : s ++ EmptyString = s.
Proof. induction s as [|c s IH]; simpl; [reflexivity | rewrite IH; reflexivity]. Qed.

Lemma rev_string_spec (s : string) : forall acc, rev_string s acc = rev s ++ acc.
Proof.
  unfold rev. induction s as [|c s IH]; intros acc; simpl; [reflexivity|].
  rewrite (IH (String c acc)), (IH (String c EmptyString)).
  rewrite Properties.append_assoc. reflexivity.
Qed.

Lemma rev_cons (c : ascii) (s : string) : rev (String c s) = rev s ++ str1 c.
Proof. unfold rev at 1. simpl. apply rev_string_spec. Qed.

Lemma rev_app (a b : string) : rev (a ++ b) = rev b ++ rev a.
Proof.
  induction a as [|c a IH]; simpl.
  - rewrite append_nil_r. reflexivity.
  - rewrite !rev_cons, IH, Properties.append_assoc. reflexivity.
Qed.

Lemma rev_involutive (s : string) : rev (rev s) = s.
Proof.
  induction s as [|c s IH]; [reflexivity|].
  rewrite rev_cons, rev_app, IH. reflexivity.
Qed.

Lemma rev_empty (s : string) : rev s = EmptyString -> s = EmptyString.
Proof. intros H. rewrite <- (rev_involutive s), H. reflexivity. Qed.

Lemma lstrip_step (s : string) :
  lstrip s = match lead s with Some r => lstrip r | None => s end.
Proof.
  destruct s as [|a r]; [reflexivity|].
  cbn [lstrip lead]. destruct (is_py_space a); [reflexivity|].
  destruct r as [|b r1]; [reflexivity|].
  destruct (is_space2 a b); [reflexivity|].
  destruct r1 as [|c r2]; [reflexivity|].
  destruct (is_space3 a b c); reflexivity.
Qed.

Lemma lstrip_rev_step (s : string) :
  lstrip_rev s = match lead_rev s with Some r => lstrip_rev r | None => s end.
Proof.
  destruct s as [|a r]; [reflexivity|].
  cbn [lstrip_rev lead_rev]. destruct (is_py_space a); [reflexivity|].
  destruct r as [|b r1]; [reflexivity|].
  destruct (is_space2 b a); [reflexivity|].
  destruct r1 as [|c r2]; [reflexivity|].
  destruct (is_space3 c b a); reflexivity.
Qed.

(** The whitespace found at the start is one, two or three bytes. *)
Lemma lead_split (s r : string) :
  lead s = Some r ->
  exists p, s = p ++ r /\ lead p = Some EmptyString /\
            (0 < String.length p <= 3)%nat.
Proof.
  destruct s as [|a s]; [discriminate|]. cbn [lead].
  destruct (is_py_space a) eqn:Ha.
  { intros H. inversion H; subst. exists (str1 a). cbn [lead str1]. rewrite Ha.
    repeat split; simpl; lia. }
  destruct s as [|b s]; [discriminate|].
  destruct (is_space2 a b) eqn:Hb.
  { intros H. inversion H; subst. exists (String a (str1 b)). cbn [lead str1].
    rewrite Ha, Hb. repeat split; simpl; lia. }
  destruct s as [|c s]; [discriminate|].
  destruct (is_space3 a b c) eqn:Hc; [|discriminate].
  intros H. inversion H; subst. exists (String a (String b (str1 c))). cbn [lead str1].
  rewrite Ha, Hb, Hc. repeat split; simpl; lia.
Qed.

Lemma lead_rev_split (s r : string) :
  lead_rev s = Some r ->
  exists p, s = p ++ r /\ lead (rev p) = Some EmptyString /\
            (0 < String.length p <= 3)%nat.
Proof.
  destruct s as [|a s]; [discriminate|]. cbn [lead_rev].
  destruct (is_py_space a) eqn:Ha.
  { intros H. inversion H; subst. exists (str1 a).
    change (rev (str1 a)) with (str1 a). cbn [lead str1]. rewrite Ha.
    repeat split; simpl; lia. }
  destruct s as [|b s]; [discriminate|].
  destruct (is_space2 b a) eqn:Hb.
  { intros H. inversion H; subst. exists (String a (str1 b)).
    change (rev (String a (str1 b))) with (String b (str1 a)).
    assert (Hsb : is_py_space b = false).
    { unfold is_space2 in Hb. apply andb_true_iff in Hb. destruct Hb as [Hb _].
      apply N.eqb_eq in Hb. unfold is_py_space, in_range. rewrite Hb. reflexivity. }
    cbn [lead str1]. rewrite Hsb, Hb. repeat split; simpl; lia. }
  destruct s as [|c s]; [discriminate|].
  destruct (is_space3 c b a) eqn:Hc; [|discriminate].
  intros H. inversion H; subst. exists (String a (String b (str1 c))).
  change (rev (String a (String b (str1 c)))) with (String c (String b (str1 a))).
  assert (Hlead : (N.eqb (code c) 225 || N.eqb (code c) 226 || N.eqb (code c) 227)%bool = true).
  { unfold is_space3 in Hc.
    destruct (N.eqb (code c) 225); [reflexivity|].
    destruct (N.eqb (code c) 226); [reflexivity|].
    destruct (N.eqb (code c) 227); [reflexivity|]. discriminate. }
  assert (Hsc : is_py_space c = false /\ is_space2 c b = false).
  { unfold is_py_space, is_space2, in_range.
    apply orb_true_iff in Hlead. destruct Hlead as [Hlead|Hlead].
    - apply orb_true_iff in Hlead. destruct Hlead as [Hlead|Hlead];
        apply N.eqb_eq in Hlead; rewrite Hlead; split; reflexivity.
    - apply N.eqb_eq in Hlead; rewrite Hlead; split; reflexivity. }
  destruct Hsc as [Hsc Hsc2].
  cbn [lead str1]. rewrite Hsc, Hsc2, Hc. repeat split; simpl; lia.
Qed.

Lemma length_app (a b : string) :
  String.length (a ++ b) = (String.length a + String.length b)%nat.
Proof. induction a as [|c a IH]; simpl; [reflexivity | rewrite IH; reflexivity]. Qed.

(** Text added at the end does not change the whitespace found at the
    start. *)
Lemma lead_app (p r u : string) : lead p = Some r -> lead (p ++ u) = Some (r ++ u).
Proof.
  destruct p as [|a p]; [discriminate|]. cbn [lead append].
  destruct (is_py_space a).
  { intros H. inversion H; subst. reflexivity. }
  destruct p as [|b p]; [discriminate|]. cbn [append].
  destruct (is_space2 a b).
  { intros H. inversion H; subst. reflexivity. }
  destruct p as [|c p]; [discriminate|]. cbn [append].
  destruct (is_space3 a b c); [|discriminate].
  intros H. inversion H; subst. reflexivity.
Qed.

Lemma lead_prefix (p u : string) : lead (p ++ u) = None -> lead p = None.
Proof.
  intros H. destruct (lead p) as [r|] eqn:Hp; [|reflexivity].
  rewrite (lead_app p r u Hp) in H. discriminate.
Qed.

Lemma lstrip_spec (n : nat) :
  forall s, (String.length s <= n)%nat ->
            lead (lstrip s) = None /\ exists p, s = p ++ lstrip s.
Proof.
  induction n as [|n IH]; intros s Hn.
  - destruct s; [|simpl in Hn; lia]. split; [reflexivity|]. exists EmptyString. reflexivity.
  - rewrite lstrip_step. destruct (lead s) as [r|] eqn:Hl.
    + destruct (lead_split s r Hl) as (p & Hs & _ & Hp).
      assert (Hr : (String.length r <= n)%nat).
      { rewrite Hs, length_app in Hn. lia. }
      destruct (IH r Hr) as [H1 [q Hq]]. split; [exact H1|].
      exists (p ++ q). rewrite Properties.append_assoc, <- Hq. exact Hs.
    + split; [exact Hl|]. exists EmptyString. reflexivity.
Qed.

Lemma lstrip_rev_spec (n : nat) :
  forall s, (String.length s <= n)%nat ->
            lead_rev (lstrip_rev s) = None /\ exists p, s = p ++ lstrip_rev s.
Proof.
  induction n as [|n IH]; intros s Hn.
  - destruct s; [|simpl in Hn; lia]. split; [reflexivity|]. exists EmptyString. reflexivity.
  - rewrite lstrip_rev_step. destruct (lead_rev s) as [r|] eqn:Hl.
    + destruct (lead_rev_split s r Hl) as (p & Hs & _ & Hp).
      assert (Hr : (String.length r <= n)%nat).
      { rewrite Hs, length_app in Hn. lia. }
      destruct (IH r Hr) as [H1 [q Hq]]. split; [exact H1|].
      exists (p ++ q). rewrite Properties.append_assoc, <- Hq. exact Hs.
    + split; [exact Hl|]. exists EmptyString. reflexivity.
Qed.

Lemma lstrip_fixed (s : string) : lead s = None -> lstrip s = s.
Proof. intros H. rewrite lstrip_step, H. reflexivity. Qed.

Lemma lstrip_rev_fixed (s : string) : lead_rev s = None -> lstrip_rev s = s.
Proof. intros H. rewrite lstrip_rev_step, H. reflexivity. Qed.

Lemma strip_unfold (s : string) : strip s = rev (lstrip_rev (rev (lstrip s))).
Proof. reflexivity. Qed.

(** Stripping a stripped text changes nothing. *)
Lemma strip_idempotent (s : string) : strip (strip s) = strip s.
Proof.
  rewrite (strip_unfold s).
  destruct (lstrip_spec (String.length s) s (Nat.le_refl _)) as [Ht _].
  set (t := lstrip s) in *.
  destruct (lstrip_rev_spec (String.length (rev t)) (rev t) (Nat.le_refl _)) as [Hq [w Hw]].
  set (q := lstrip_rev (rev t)) in *.
  assert (Hrt : t = rev q ++ rev w).
  { rewrite <- rev_app, <- Hw, rev_involutive. reflexivity. }
  rewrite Hrt in Ht. apply lead_prefix in Ht.
  rewrite strip_unfold, (lstrip_fixed (rev q) Ht), rev_involutive, (lstrip_rev_fixed q Hq).
  reflexivity.
Qed.

(** *** The checks of the validator *)

Import ValidateCredentials.

(** X2.  The validator never reports the issue on leading or trailing
    whitespace, for the identifier or for the secret: it tests values that
    it has stripped already, and stripping twice changes nothing. *)
Theorem whitespace_issue_is_never_reported (env : environ) :
  ~ In "Has leading/trailing whitespace" (client_id_issues (read_credentials env)) /\
  ~ In "Has leading/trailing whitespace" (client_secret_issues (read_credentials env)).
Proof.
  assert (H : forall x,
             ~ In "Has leading/trailing whitespace" (id_or_secret_issues (strip x))).
  { intros x. unfold id_or_secret_issues.
    rewrite strip_idempotent, String.eqb_refl.
    destruct (is_empty (strip x)); simpl.
    - intros [H|[]]; discriminate.
    - destruct (Nat.ltb (py_len (strip x)) 10); destruct (contains " " (strip x));
        simpl; intuition discriminate. }
  split; apply H.
Qed.

Lemma id_or_secret_sound (x : string) :
  (negb (is_empty (strip x)) && negb (any_issue (id_or_secret_issues (strip x))))%bool =
  (Nat.leb 10 (py_len (strip x)) && negb (contains " " (strip x)))%bool.
Proof.
  unfold id_or_secret_issues. rewrite strip_idempotent, String.eqb_refl.
  destruct (strip x) as [|c v] eqn:Hv; [reflexivity|].
  cbn [is_empty negb andb].
  rewrite Nat.ltb_antisym.
  destruct (Nat.leb 10 (py_len (String c v))); destruct (contains " " (String c v));
    reflexivity.
Qed.

(** X3.  The validator sends its probe exactly when the identifier and the
    secret each have at least ten characters and no space; otherwise it
    sends nothing.  The issues of the redirect URI, of the user agent and of
    the user name never hold the probe back. *)
Theorem probe_is_sent_iff_id_and_secret_sound (env : environ) :
  let c := read_credentials env in
  let sound :=
    (Nat.leb 10 (py_len (client_id c)) && negb (contains " " (client_id c)) &&
     (Nat.leb 10 (py_len (client_secret c)) && negb (contains " " (client_secret c))))%bool in
  tests_credentials c = sound /\
  requests_sent env = if sound then [probe_request c] else [].
Proof.
  cbv zeta.
  assert (H : tests_credentials (read_credentials env) =
              (Nat.leb 10 (py_len (client_id (read_credentials env))) &&
               negb (contains " " (client_id (read_credentials env))) &&
               (Nat.leb 10 (py_len (client_secret (read_credentials env))) &&
                negb (contains " " (client_secret (read_credentials env)))))%bool).
  { unfold tests_credentials, client_id_issues, client_secret_issues.
    cbn [read_credentials client_id client_secret].
    rewrite <- !id_or_secret_sound.
    destruct (is_empty (strip (getenv "CLIENT_ID" EmptyString env)));
      destruct (is_empty (strip (getenv "CLIENT_SECRET" EmptyString env)));
      destruct (any_issue (id_or_secret_issues (strip (getenv "CLIENT_ID" EmptyString env))));
      destruct (any_issue
                  (id_or_secret_issues (strip (getenv "CLIENT_SECRET" EmptyString env))));
      reflexivity. }
  split; [exact H|]. unfold requests_sent. rewrite H. reflexivity.
Qed.

(** X4.  The validator probes the provider at the address of the token
    exchange with the very Authorization header that [get_tokens] sends for
    the same environment, and with the same content type.  Its User-Agent is
    the configured one, replaced by a fixed name when none is configured, so
    it is never empty, where [get_tokens] sends the configured one as it is.
    The probe carries neither a code nor a redirect URI. *)
Theorem probe_matches_token_request (env : environ) (code : string) :
  let probe := probe_request (read_credentials env) in
  let rq := token_request (load_config env) code in
  post_url probe = post_url rq /\
  header "Authorization" probe = header "Authorization" rq /\
  header "Content-Type" probe = header "Content-Type" rq /\
  header "User-Agent" rq = Some (USER_AGENT (load_config env)) /\
  header "User-Agent" probe =
    Some (if is_empty (USER_AGENT (load_config env)) then "CredentialValidator/1.0"
          else USER_AGENT (load_config env)) /\
  header "User-Agent" probe <> Some EmptyString /\
  post_data probe = [("grant_type", "client_credentials")].
Proof.
  cbv zeta. repeat split.
  unfold header. simpl.
  destruct (strip (getenv "USER_AGENT" EmptyString env)); simpl; discriminate.
Qed.

(** *** The callback handler *)

Lemma qdict_get_add (n m v : string) (d : qdict) :
  qdict_get n (qdict_add m v d) =
    if String.eqb n m then Some (current m d ++ [v])%list else qdict_get n d.
Proof.
  unfold current. induction d as [|[k vs] d IH]; simpl.
  - destruct (String.eqb n m); reflexivity.
  - destruct (String.eqb_spec m k) as [Hmk|Hmk]; simpl.
    + subst k. destruct (String.eqb n m); reflexivity.
    + rewrite IH.
      destruct (String.eqb_spec n k) as [Hnk|Hnk];
        destruct (String.eqb_spec n m) as [Hnm|Hnm]; try reflexivity.
      subst. contradiction.
Qed.

Lemma qdict_get_fold (n : string) (pairs : list (string * string)) :
  forall d,
    qdict_get n d <> Some [] ->
    qdict_get n (List.fold_left (fun d nv => qdict_add (fst nv) (snd nv) d) pairs d) =
      match (current n d ++ values_of n pairs)%list with
      | [] => None
      | l => Some l
      end.
Proof.
  induction pairs as [|[m v] pairs IH]; intros d Hd; simpl.
  - unfold current. rewrite app_nil_r.
    destruct (qdict_get n d) as [[|x l]|]; try reflexivity. contradiction.
  - rewrite IH.
    + unfold current at 1. rewrite qdict_get_add.
      destruct (String.eqb_spec n m) as [Hnm|Hnm].
      * subst m. rewrite <- app_assoc. reflexivity.
      * reflexivity.
    + rewrite qdict_get_add.
      destruct (String.eqb n m); [|exact Hd].
      intros H. inversion H as [H']. destruct (current m d); discriminate.
Qed.

(** The values that [parse_qs] keeps under a name are those of the fields
    with that name, in order, and a name is present only with a value. *)
Lemma parse_qs_values (name qs : string) :
  qdict_get name (parse_qs qs) =
    match values_of name (parse_qsl qs) with
    | [] => None
    | l => Some l
    end.
Proof.
  unfold parse_qs. rewrite qdict_get_fold; [reflexivity|]. simpl. discriminate.
Qed.

(** X5.  For a request target in origin form, [do_GET] sends one reply:
    200 with the success text when the query has a field named [code] with
    a value, and it then hands over the value of the first such field,
    unquoted and stripped, and prints it; 400 with the error text otherwise,
    and it then leaves the handoff as it was.  Nothing but the handoff and
    the log of the listener changes. *)
Theorem do_GET_answers_once (path : string) (w : world) :
  origin_form path = true ->
  do_GET path w =
    match values_of "code" (parse_qsl (urlparse_query path)) with
    | v :: _ =>
        log_listener
          [Reply 200 "Authorization successful! You can close this tab.";
           Print ("✅ Authorization Code Captured: " ++ strip v)]
          (set_auth_code (Some (strip v)) w)
    | [] => log_listener [Reply 400 "Error: Authorization code not found."] w
    end.
Proof.
  intros _. unfold do_GET. rewrite parse_qs_values.
  destruct (values_of "code" (parse_qsl (urlparse_query path))); reflexivity.
Qed.

Lemma do_GET_answers_once_witness :
  do_GET "/?code=%C2%A0abc123%E2%80%83&state=RANDOM_STRING" (start empty_dir None) =
    match values_of "code"
            (parse_qsl (urlparse_query "/?code=%C2%A0abc123%E2%80%83&state=RANDOM_STRING")) with
    | v :: _ =>
        log_listener
          [Reply 200 "Authorization successful! You can close this tab.";
           Print ("✅ Authorization Code Captured: " ++ strip v)]
          (set_auth_code (Some (strip v)) (start empty_dir None))
    | [] =>
        log_listener [Reply 400 "Error: Authorization code not found."] (start empty_dir None)
    end.
Proof.
  apply (do_GET_answers_once "/?code=%C2%A0abc123%E2%80%83&state=RANDOM_STRING"
           (start empty_dir None)).
  vm_compute. reflexivity.
Defined.

Lemma code_of_values (path : string) :
  code_of path =
    match values_of "code" (parse_qsl (urlparse_query path)) with
    | [] => None
    | l => Some l
    end.
Proof. unfold code_of. apply parse_qs_values. Qed.

(** *** When the flow ends *)

Lemma exchange_ends (cfg : config) (net : provider) (code : string) (w : world) :
  fst (exchange cfg net code w) <> Waiting.
Proof.
  destruct w as [f ac l ib ml ll].
  destruct (net (token_request cfg code)) as [rsp|] eqn:Hn.
  - destruct (Z.eqb (status_code rsp) 200) eqn:Hs.
    + destruct (loads (text rsp)) as [v|] eqn:Hj.
      * destruct v as [| | | | | |d].
        7: { destruct (dict_get "refresh_token" d) as [v|] eqn:Hk.
             - rewrite (Properties.exchange_persists cfg net code f ac l ib ml ll
                          rsp d v Hn Hs Hj Hk). discriminate.
             - rewrite (Properties.exchange_missing_key cfg net code f ac l ib ml ll
                          rsp d Hn Hs Hj Hk). discriminate. }
        all: rewrite (Properties.exchange_not_object cfg net code f ac l ib ml ll
                        rsp _ Hn Hs Hj ltac:(intros; discriminate)); discriminate.
      * rewrite (Properties.exchange_no_json cfg net code f ac l ib ml ll rsp Hn Hs Hj).
        discriminate.
    + rewrite (Properties.exchange_failed cfg net code f ac l ib ml ll rsp Hn Hs).
      discriminate.
  - rewrite (Properties.exchange_transport cfg net code f ac l ib ml ll Hn). discriminate.
Qed.

(** The redirect is not in yet when the fuel is spent: the loop has slept
    through the fuel and the listener is still blocked. *)
Lemma busy_wait_early (k : nat) :
  forall (fuel : nat) (f : files) (ml ll : list event) (path : string),
    (fuel < k)%nat ->
    busy_wait fuel (mkWorld f None Listening (Some (k, path)) ml ll) =
      (Waiting, mkWorld f None Listening (Some ((k - fuel)%nat, path)) ml ll).
Proof.
  induction k as [|k IH]; intros fuel f ml ll path Hlt; [lia|].
  destruct fuel as [|fuel]; [reflexivity|].
  simpl. apply IH. lia.
Qed.

(** X6.  A run that finds no stored token opens the browser once and sends
    the token request exactly when a redirect, in origin form, arrives whose
    query has a [code] field with a value: it sends it, with the stripped
    value of the first such field, once it has polled as often as sleeps
    pass before the redirect.  Until then the run is in its polling loop and
    has sent no request, and it polls for ever when no such redirect comes.
    What becomes of the request once it is sent, which has no timeout, is
    not part of this property. *)
Theorem token_request_is_sent_iff_code_arrives (cfg : config) (net : provider) (f : files)
        (r : option (nat * string)) (fuel : nat) :
  fst (load_existing_tokens (start f r)) = Done false ->
  (forall k path, r = Some (k, path) -> origin_form path = true) ->
  let run := get_tokens cfg net fuel (start f r) in
  let arrived :=
    match r with
    | Some (k, path) =>
        match values_of "code" (parse_qsl (urlparse_query path)) with
        | v :: _ => if (k <=? fuel)%nat then Some (strip v) else None
        | [] => None
        end
    | None => None
    end in
  network_events (main_log (snd run)) =
    BrowserOpen (authorization_url cfg) ::
    match arrived with Some c => [post_event cfg c] | None => [] end /\
  auth_code (snd run) = arrived /\
  (arrived = None -> fst run = Waiting) /\
  ((forall k path, r = Some (k, path) ->
      values_of "code" (parse_qsl (urlparse_query path)) = []) ->
   hangs (fun fuel' => get_tokens cfg net fuel' (start f r))).
Proof.
  intros Hs _. cbv zeta.
  destruct r as [[k path]|].
  - pose proof (code_of_values path) as Hc.
    destruct (values_of "code" (parse_qsl (urlparse_query path))) as [|v vs] eqn:Hv.
    + destruct (Properties.get_tokens_without_code f k path Hs Hc) as [es [Hne Hrun]].
      rewrite Hrun. cbn [fst snd]. repeat split.
      * destruct (k <=? fuel)%nat; cbn [main_log];
          rewrite Properties.network_events_app, Hne; reflexivity.
      * destruct (k <=? fuel)%nat; reflexivity.
      * intros _ fuel'. rewrite Hrun. reflexivity.
    + destruct (Nat.leb_spec k fuel) as [Hle|Hgt].
      * destruct (Properties.get_tokens_with_code f k path v vs Hs Hc) as [es [Hne Hrun]].
        rewrite (Hrun cfg net fuel Hle).
        match goal with
        | |- context [exchange cfg net ?c (mkWorld ?f0 ?ac ?l ?ib ?ml ?ll)] =>
            destruct (Properties.exchange_frame cfg net c f0 ac l ib ml ll)
              as [rest [f' [Hw Hr]]]
        end.
        rewrite Hw. cbn [main_log auth_code]. repeat split.
        -- rewrite !Properties.network_events_app, Hne, Properties.network_events_post, Hr.
           reflexivity.
        -- discriminate.
        -- intros H. specialize (H k path eq_refl). rewrite Hv in H. discriminate.
      * destruct (Properties.get_tokens_start f (Some (k, path)) Hs) as [es [Hne Hrun]].
        rewrite Hrun. unfold bind.
        rewrite (busy_wait_early k fuel f _ _ path Hgt). cbn [fst snd main_log auth_code].
        repeat split.
        -- rewrite Properties.network_events_app, Hne. reflexivity.
        -- intros H. specialize (H k path eq_refl). rewrite Hv in H. discriminate.
  - destruct (Properties.get_tokens_without_redirect f Hs) as [es [Hne Hrun]].
    rewrite Hrun. cbn [fst snd main_log auth_code]. repeat split.
    + rewrite Properties.network_events_app, Hne. reflexivity.
    + intros _ fuel'. rewrite Hrun. reflexivity.
Qed.

Lemma token_request_is_sent_iff_code_arrives_witness :
  let run := get_tokens (load_config env_ok) (answers 200 body_tokens) 5
               (start empty_dir (Some (3%nat, redirect_code))) in
  let arrived :=
    match values_of "code" (parse_qsl (urlparse_query redirect_code)) with
    | v :: _ => if (3 <=? 5)%nat then Some (strip v) else None
    | [] => None
    end in
  network_events (main_log (snd run)) =
    BrowserOpen (authorization_url (load_config env_ok)) ::
    match arrived with Some c => [post_event (load_config env_ok) c] | None => [] end /\
  auth_code (snd run) = arrived /\
  (arrived = None -> fst run = Waiting) /\
  ((forall k path, Some (3%nat, redirect_code) = Some (k, path) ->
      values_of "code" (parse_qsl (urlparse_query path)) = []) ->
   hangs (fun fuel' =>
            get_tokens (load_config env_ok) (answers 200 body_tokens) fuel'
              (start empty_dir (Some (3%nat, redirect_code))))).
Proof.
  apply (token_request_is_sent_iff_code_arrives (load_config env_ok) (answers 200 body_tokens)
           empty_dir (Some (3%nat, redirect_code)) 5).
  - vm_compute. reflexivity.
  - intros k path H. inversion H; subst. vm_compute. reflexivity.
Defined.

(** *** What a run writes *)

Lemma exchange_writes (cfg : config) (net : provider) (code : string) (w : world) :
  fs (snd (exchange cfg net code w)) = fs w \/
  (fst (exchange cfg net code w) = Done tt /\
   exists rsp d token,
     net (token_request cfg code) = Some rsp /\
     status_code rsp = 200%Z /\
     loads (text rsp) = Some (JObject d) /\
     dict_get "refresh_token" d = Some token /\
     fs (snd (exchange cfg net code w)) =
       write_to TOKEN_FILE (dumps (JObject [("refresh_token", token)])) (fs w)).
Proof.
  destruct w as [f ac l ib ml ll].
  destruct (net (token_request cfg code)) as [rsp|] eqn:Hn.
  - destruct (Z.eqb (status_code rsp) 200) eqn:Hs.
    + destruct (loads (text rsp)) as [v|] eqn:Hj.
      * destruct v as [| | | | | |d].
        7: { destruct (dict_get "refresh_token" d) as [v|] eqn:Hk.
             - rewrite (Properties.exchange_persists cfg net code f ac l ib ml ll
                          rsp d v Hn Hs Hj Hk).
               right. split; [reflexivity|]. exists rsp, d, v.
               apply Z.eqb_eq in Hs. repeat split; assumption.
             - rewrite (Properties.exchange_missing_key cfg net code f ac l ib ml ll
                          rsp d Hn Hs Hj Hk). left. reflexivity. }
        all: rewrite (Properties.exchange_not_object cfg net code f ac l ib ml ll
                        rsp _ Hn Hs Hj ltac:(intros; discriminate)); left; reflexivity.
      * rewrite (Properties.exchange_no_json cfg net code f ac l ib ml ll rsp Hn Hs Hj).
        left. reflexivity.
    + rewrite (Properties.exchange_failed cfg net code f ac l ib ml ll rsp Hn Hs).
      left. reflexivity.
  - rewrite (Properties.exchange_transport cfg net code f ac l ib ml ll Hn).
    left. reflexivity.
Qed.

Lemma get_tokens_writes (cfg : config) (net : provider) (fuel : nat) (w : world) :
  fs (snd (get_tokens cfg net fuel w)) = fs w \/
  (fst (get_tokens cfg net fuel w) = Done tt /\
   exists code rsp d token,
     net (token_request cfg code) = Some rsp /\
     status_code rsp = 200%Z /\
     loads (text rsp) = Some (JObject d) /\
     dict_get "refresh_token" d = Some token /\
     fs (snd (get_tokens cfg net fuel w)) =
       write_to TOKEN_FILE (dumps (JObject [("refresh_token", token)])) (fs w)).
Proof.
  rewrite Properties.get_tokens_unfold.
  destruct (Properties.load_existing_tokens_frame w) as [es [Hw _]].
  destruct (load_existing_tokens w) as [[[|]|e|] w1]; cbn [snd] in Hw; subst w1;
    try (left; reflexivity).
  rewrite Properties.consent_unfold. unfold bind.
  set (w0 := consent_opened cfg (log_main es w)).
  assert (Hf0 : fs w0 = fs w) by reflexivity.
  destruct (Properties.busy_wait_frame fuel w0) as [Hf _].
  destruct (busy_wait fuel w0) as [[c|e|] w1]; cbn [snd] in Hf;
    try (left; cbn [snd]; rewrite Hf; exact Hf0).
  destruct (exchange_writes cfg net c w1) as [Hsame | [Hdone Hex]].
  - left. rewrite Hsame, Hf. exact Hf0.
  - right. split; [exact Hdone|].
    destruct Hex as (rsp & d & token & H1 & H2 & H3 & H4 & H5).
    exists c, rsp, d, token. repeat split; try assumption.
    rewrite H5, Hf, Hf0. reflexivity.
Qed.

(** X7.  Whatever the files, the redirect, the provider and the fuel, a run
    of [get_tokens] writes at most one file, the token file, and it writes
    it only when it returns after a 200 answer whose body is a JSON object
    with a [refresh_token]: the file then holds the one-member object with
    that value.  In every other run, the store check included, the files are
    what they were. *)
Theorem get_tokens_writes_only_the_token (cfg : config) (net : provider) (fuel : nat)
        (w : world) :
  (fs (snd (get_tokens cfg net fuel w)) = fs w \/
   (fst (get_tokens cfg net fuel w) = Done tt /\
    exists code rsp d token,
      net (token_request cfg code) = Some rsp /\
      status_code rsp = 200%Z /\
      loads (text rsp) = Some (JObject d) /\
      dict_get "refresh_token" d = Some token /\
      fs (snd (get_tokens cfg net fuel w)) =
        write_to TOKEN_FILE (dumps (JObject [("refresh_token", token)])) (fs w))) /\
  (forall p, p <> TOKEN_FILE -> fs (snd (get_tokens cfg net fuel w)) p = fs w p).
Proof.
  split; [apply get_tokens_writes|].
  intros p Hp.
  destruct (get_tokens_writes cfg net fuel w) as [H | [_ (c & rsp & d & t & _ & _ & _ & _ & H)]];
    rewrite H; [reflexivity|].
  unfold write_to. apply String.eqb_neq in Hp. rewrite Hp. reflexivity.
Qed.

(** *** Failures of the exchange *)

(** X8.  When the token request gets no answer at all, [requests.post]
    raising, the exception leaves [get_tokens] as it is: the run has opened
    the browser and sent the one POST, it prints no failure report, and it
    writes nothing. *)
Theorem transport_failure_is_uncaught (cfg : config) (net : provider) (f : files)
        (k fuel : nat) (path v : string) (vs : list string) :
  fst (load_existing_tokens (start f (Some (k, path)))) = Done false ->
  code_of path = Some (v :: vs) ->
  (k <= fuel)%nat ->
  net (token_request cfg (strip v)) = None ->
  let run := get_tokens cfg net fuel (start f (Some (k, path))) in
  fst run = Raised ConnectionError /\
  fs (snd run) = f /\
  network_events (main_log (snd run)) =
    [BrowserOpen (authorization_url cfg); post_event cfg (strip v)] /\
  (exists before, main_log (snd run) = (before ++ [post_event cfg (strip v)])%list).
Proof.
  intros Hs Hq Hk Hn.
  destruct (Properties.get_tokens_with_code f k path v vs Hs Hq) as [es [Hne Hrun]].
  cbv zeta. rewrite (Hrun cfg net fuel Hk).
  rewrite (Properties.exchange_transport cfg net (strip v) f _ _ _ _ _ Hn).
  cbn [fst snd fs main_log]. repeat split.
  - rewrite !Properties.network_events_app, Hne. reflexivity.
  - eexists. reflexivity.
Qed.

Lemma transport_failure_is_uncaught_witness :
  let run := get_tokens (load_config env_ok) (fun _ => None) 4
               (start empty_dir (Some (2%nat, redirect_code))) in
  fst run = Raised ConnectionError /\
  fs (snd run) = empty_dir /\
  network_events (main_log (snd run)) =
    [BrowserOpen (authorization_url (load_config env_ok));
     post_event (load_config env_ok) (strip "abc123")] /\
  (exists before,
     main_log (snd run) = (before ++ [post_event (load_config env_ok) (strip "abc123")])%list).
Proof.
  apply (transport_failure_is_uncaught (load_config env_ok) (fun _ => None) empty_dir
           2 4 redirect_code "abc123" []).
  - vm_compute. reflexivity.
  - vm_compute. reflexivity.
  - lia.
  - reflexivity.
Defined.

(** X9.  On a 200 answer whose body is no JSON object, [get_tokens] raises
    and reports nothing: [JSONDecodeError] when the body is no JSON at all,
    [TypeError] when it is a JSON document of another kind, which cannot be
    subscripted by a key.  The last event of the run is the POST, and no
    file is written. *)
Theorem malformed_success_body_raises (cfg : config) (net : provider) (f : files)
        (k fuel : nat) (path v : string) (vs : list string) (rsp : response) :
  fst (load_existing_tokens (start f (Some (k, path)))) = Done false ->
  code_of path = Some (v :: vs) ->
  (k <= fuel)%nat ->
  net (token_request cfg (strip v)) = Some rsp ->
  status_code rsp = 200%Z ->
  (forall d, loads (text rsp) <> Some (JObject d)) ->
  let run := get_tokens cfg net fuel (start f (Some (k, path))) in
  fst run =
    Raised (match loads (text rsp) with None => JSONDecodeError | Some _ => TypeError end) /\
  fs (snd run) = f /\
  (exists before, main_log (snd run) = (before ++ [post_event cfg (strip v)])%list).
Proof.
  intros Hs Hq Hk Hn Hst Hobj.
  destruct (Properties.get_tokens_with_code f k path v vs Hs Hq) as [es [_ Hrun]].
  cbv zeta. rewrite (Hrun cfg net fuel Hk).
  assert (Hst' : Z.eqb (status_code rsp) 200 = true) by (rewrite Hst; reflexivity).
  destruct (loads (text rsp)) as [j|] eqn:Hj.
  - assert (Hno : forall d, j <> JObject d).
    { intros d Hd. apply (Hobj d). rewrite Hd. reflexivity. }
    rewrite (Properties.exchange_not_object cfg net (strip v) f _ _ _ _ _ rsp j
               Hn Hst' Hj Hno).
    cbn [fst snd fs main_log]. repeat split. eexists. reflexivity.
  - rewrite (Properties.exchange_no_json cfg net (strip v) f _ _ _ _ _ rsp Hn Hst' Hj).
    cbn [fst snd fs main_log]. repeat split. eexists. reflexivity.
Qed.

Lemma malformed_success_body_raises_witness :
  let run := get_tokens (load_config env_ok) (answers 200 "<html>busy</html>") 4
               (start empty_dir (Some (2%nat, redirect_code))) in
  fst run =
    Raised (match loads "<html>busy</html>" with
            | None => JSONDecodeError
            | Some _ => TypeError
            end) /\
  fs (snd run) = empty_dir /\
  (exists before,
     main_log (snd run) = (before ++ [post_event (load_config env_ok) (strip "abc123")])%list).
Proof.
  apply (malformed_success_body_raises (load_config env_ok) (answers 200 "<html>busy</html>")
           empty_dir 2 4 redirect_code "abc123" [] (mkResponse 200 "<html>busy</html>")).
  - vm_compute. reflexivity.
  - vm_compute. reflexivity.
  - lia.
  - reflexivity.
  - reflexivity.
  - intros d. vm_compute. discriminate.
Defined.

(** *** The record that a run leaves is the record that the next run finds *)

Lemma plain_char (c : ascii) :
  is_plain c = true ->
  Ascii.eqb c dq = false /\ Ascii.eqb c bslash = false /\
  N.ltb (code c) 32 = false /\ N.ltb (code c) 128 = true.
Proof.
  unfold is_plain, in_range. intros H.
  apply andb_true_iff in H. destruct H as [H Hb].
  apply andb_true_iff in H. destruct H as [H Hq].
  apply andb_true_iff in H. destruct H as [Hlo Hhi].
  apply negb_true_iff in Hb. apply negb_true_iff in Hq.
  apply N.leb_le in Hlo. apply N.leb_le in Hhi.
  repeat split; try assumption.
  - apply N.ltb_ge. exact Hlo.
  - apply N.ltb_lt. lia.
Qed.

Lemma scan_string_plain_char (c : ascii) (r : string) :
  is_plain c = true ->
  scan_string (String c r) = prepend (str1 c) (scan_string r).
Proof.
  intros H. destruct (plain_char c H) as (Hq & Hb & Hlt & _).
  simpl. rewrite Hq, Hb, Hlt. reflexivity.
Qed.

Lemma scan_string_plain (s rest : string) :
  all_plain s = true ->
  scan_string (s ++ String dq rest) = Some (s, rest).
Proof.
  induction s as [|c s IH]; intros H.
  - reflexivity.
  - simpl in H. apply andb_true_iff in H. destruct H as [Hc Hs].
    change (String c s ++ String dq rest) with (String c (s ++ String dq rest)).
    rewrite (scan_string_plain_char c _ Hc), (IH Hs). reflexivity.
Qed.

Lemma escape_plain_char (c : ascii) (r : string) :
  is_plain c = true ->
  escape_ascii (String c r) = String c (escape_ascii r).
Proof.
  intros H. destruct (plain_char c H) as (Hq & Hb & Hlt & H128).
  unfold is_plain, in_range in H.
  apply andb_true_iff in H. destruct H as [H _].
  apply andb_true_iff in H. destruct H as [H _].
  apply andb_true_iff in H. destruct H as [Hlo Hhi].
  apply N.leb_le in Hlo. apply N.leb_le in Hhi.
  assert (Hw : utf8_width c = 1%nat).
  { unfold utf8_width, in_range.
    replace (N.leb 192 (code c)) with false by (symmetry; apply N.leb_gt; lia).
    replace (N.leb 224 (code c)) with false by (symmetry; apply N.leb_gt; lia).
    replace (N.leb 240 (code c)) with false by (symmetry; apply N.leb_gt; lia).
    reflexivity. }
  assert (He : escape_char c = str1 c).
  { unfold escape_char. rewrite Hq, Hb.
    replace (N.eqb (code c) 10) with false by (symmetry; apply N.eqb_neq; lia).
    replace (N.eqb (code c) 13) with false by (symmetry; apply N.eqb_neq; lia).
    replace (N.eqb (code c) 9) with false by (symmetry; apply N.eqb_neq; lia).
    replace (N.eqb (code c) 8) with false by (symmetry; apply N.eqb_neq; lia).
    replace (N.eqb (code c) 12) with false by (symmetry; apply N.eqb_neq; lia).
    rewrite Hlt.
    replace (N.eqb (code c) 127) with false by (symmetry; apply N.eqb_neq; lia).
    reflexivity. }
  cbn [escape_ascii]. rewrite Hw, H128, He. reflexivity.
Qed.

Lemma escape_plain (s : string) : all_plain s = true -> escape_ascii s = s.
Proof.
  induction s as [|c s IH]; intros H; [reflexivity|].
  simpl in H. apply andb_true_iff in H. destruct H as [Hc Hs].
  rewrite (escape_plain_char c s Hc), (IH Hs). reflexivity.
Qed.

Lemma all_ascii_app (a b : string) :
  all_ascii (a ++ b) = (all_ascii a && all_ascii b)%bool.
Proof.
  induction a as [|c a IH]; simpl; [reflexivity|].
  rewrite IH, andb_assoc. reflexivity.
Qed.

Lemma all_plain_ascii (s : string) : all_plain s = true -> all_ascii s = true.
Proof.
  induction s as [|c s IH]; intros H; [reflexivity|].
  simpl in H. apply andb_true_iff in H. destruct H as [Hc Hs].
  destruct (plain_char c Hc) as (_ & _ & _ & Hlt).
  simpl. rewrite Hlt, (IH Hs). reflexivity.
Qed.

Lemma utf8_valid_ascii (s : string) : all_ascii s = true -> utf8_valid s = true.
Proof.
  induction s as [|c s IH]; intros H; [reflexivity|].
  simpl in H. apply andb_true_iff in H. destruct H as [Hc Hs].
  simpl. rewrite Hc. exact (IH Hs).
Qed.

Lemma record_of_plain (token : string) :
  all_plain token = true ->
  record_of token =
    String "{" (String dq ("refresh_token" ++
      String dq (String ":" (String " " (String dq (token ++ String dq "}")))))).
Proof.
  intros H. unfold record_of, dumps_string, quoted. rewrite (escape_plain token H).
  rewrite !Properties.append_assoc. reflexivity.
Qed.

Lemma record_of_valid (token : string) :
  all_plain token = true -> utf8_valid (record_of token) = true.
Proof.
  intros H. apply utf8_valid_ascii. rewrite (record_of_plain token H).
  change (all_ascii (token ++ String dq "}") = true).
  rewrite all_ascii_app, (all_plain_ascii token H). reflexivity.
Qed.

Lemma parse_string_value (f : nat) (r : string) :
  parse_value (S f) (String dq r) =
    match scan_string r with
    | Some (t, rest) => Some (JString t, rest)
    | None => None
    end.
Proof. reflexivity. Qed.

Lemma parse_object_member (f : nat) (k r : string) :
  all_plain k = true ->
  parse_value (S (S f)) (String "{" (String dq (k ++ String dq (String ":" (String " " r))))) =
    match parse_value f (skip_ws r) with
    | Some (v, r3) =>
        match skip_ws r3 with
        | String "}" rest => Some (JObject (dict_set k v []), rest)
        | String "," rest => parse_members f (skip_ws rest) (dict_set k v [])
        | _ => None
        end
    | None => None
    end.
Proof.
  intros Hk.
  change (parse_value (S (S f))
            (String "{" (String dq (k ++ String dq (String ":" (String " " r))))))
    with (match scan_string (k ++ String dq (String ":" (String " " r))) with
          | Some (k', r1) =>
              match skip_ws r1 with
              | String ":" r2 =>
                  match parse_value f (skip_ws r2) with
                  | Some (v, r3) =>
                      match skip_ws r3 with
                      | String "}" rest => Some (JObject (dict_set k' v []), rest)
                      | String "," rest => parse_members f (skip_ws rest) (dict_set k' v [])
                      | _ => None
                      end
                  | None => None
                  end
              | _ => None
              end
          | None => None
          end).
  rewrite (scan_string_plain k _ Hk). reflexivity.
Qed.

Lemma record_of_loads (token : string) :
  all_plain token = true ->
  loads (record_of token) = Some (JObject [("refresh_token", JString token)]).
Proof.
  intros H. rewrite (record_of_plain token H).
  unfold loads.
  match goal with
  | |- context [String.length ?t] =>
      assert (Hn : exists n, String.length t = S (S n)) by (eexists; reflexivity);
      destruct Hn as [n Hn]; rewrite Hn; clear Hn
  end.
  change (skip_ws (String "{" ?x)) with (String "{" x).
  rewrite (parse_object_member (S (S n)) "refresh_token" _ eq_refl).
  change (skip_ws (String dq ?x)) with (String dq x).
  rewrite parse_string_value, (scan_string_plain token "}" H).
  reflexivity.
Qed.

(** What [json.dump] writes for a plain token is what [json.load] reads
    back. *)
Lemma record_of_round_trip (token : string) :
  all_plain token = true ->
  dumps (JObject [("refresh_token", JString token)]) = record_of token /\
  load_bytes (record_of token) = inr (JObject [("refresh_token", JString token)]).
Proof.
  intros H. split; [reflexivity|].
  unfold load_bytes. rewrite (record_of_valid token H), (record_of_loads token H).
  reflexivity.
Qed.

(** X10.  The record that a successful run leaves is found by the next run.
    After a run that persisted a token made of printable ASCII characters
    other than the quote and the backslash, every later run of [get_tokens]
    in the directory it left, whatever its configuration, provider and
    redirect, returns after the store check without opening the browser or
    sending a request. *)
Theorem persisted_record_stops_the_next_run (cfg : config) (net : provider) (f : files)
        (k fuel : nat) (path v : string) (vs : list string) (rsp : response)
        (d : dict) (token : string) :
  fst (load_existing_tokens (start f (Some (k, path)))) = Done false ->
  code_of path = Some (v :: vs) ->
  (k <= fuel)%nat ->
  net (token_request cfg (strip v)) = Some rsp ->
  status_code rsp = 200%Z ->
  loads (text rsp) = Some (JObject d) ->
  dict_get "refresh_token" d = Some (JString token) ->
  all_plain token = true ->
  let left := fs (snd (get_tokens cfg net fuel (start f (Some (k, path))))) in
  left TOKEN_FILE = Some (record_of token) /\
  load_bytes (record_of token) = inr (JObject [("refresh_token", JString token)]) /\
  forall cfg' net' fuel' r',
    get_tokens cfg' net' fuel' (start left r') =
      (Done tt,
       log_main [Print "✅ Refresh token already exists. No need to re-authenticate."]
         (start left r')).
Proof.
  intros Hs Hq Hk Hn Hst Hj Hd Hp.
  destruct (Properties.get_tokens_with_code f k path v vs Hs Hq) as [es [_ Hrun]].
  cbv zeta. rewrite (Hrun cfg net fuel Hk).
  assert (Hst' : Z.eqb (status_code rsp) 200 = true) by (rewrite Hst; reflexivity).
  rewrite (Properties.exchange_persists cfg net (strip v) f _ _ _ _ _ rsp d _ Hn Hst' Hj Hd).
  cbn [fst snd fs].
  destruct (record_of_round_trip token Hp) as [Hdump Hload].
  rewrite Hdump.
  assert (Hfile : write_to TOKEN_FILE (record_of token) f TOKEN_FILE = Some (record_of token)).
  { unfold write_to. rewrite String.eqb_refl. reflexivity. }
  split; [exact Hfile|]. split; [exact Hload|].
  intros cfg' net' fuel' r'.
  apply (Properties.get_tokens_skips cfg' net' fuel' _ (record_of token)
           [("refresh_token", JString token)]).
  - exact Hfile.
  - exact Hload.
  - reflexivity.
Qed.

Lemma persisted_record_stops_the_next_run_witness :
  let left := fs (snd (get_tokens (load_config env_ok) (answers 200 body_tokens) 4
                         (start empty_dir (Some (2%nat, redirect_code))))) in
  left TOKEN_FILE = Some (record_of "r_xyz") /\
  load_bytes (record_of "r_xyz") = inr (JObject [("refresh_token", JString "r_xyz")]) /\
  forall cfg' net' fuel' r',
    get_tokens cfg' net' fuel' (start left r') =
      (Done tt,
       log_main [Print "✅ Refresh token already exists. No need to re-authenticate."]
         (start left r')).
Proof.
  apply (persisted_record_stops_the_next_run (load_config env_ok) (answers 200 body_tokens)
           empty_dir 2 4 redirect_code "abc123" [] (mkResponse 200 body_tokens)
           [("refresh_token", JString "r_xyz"); ("access_token", JString "a_1");
            ("expires_in", JInt 3600)]
           "r_xyz").
  - vm_compute. reflexivity.
  - vm_compute. reflexivity.
  - lia.
  - reflexivity.
  - reflexivity.
  - vm_compute. reflexivity.
  - vm_compute. reflexivity.
  - vm_compute. reflexivity.
Defined.

(** *** [exponential_backoff] *)

Lemma pow2_pos (a : N) : (1 <= 2 ^ Z.of_N a)%Z.
Proof.
  assert (0 < 2 ^ Z.of_N a)%Z by (apply Z.pow_pos_nonneg; lia). lia.
Qed.

Lemma pow2_mono (a b : N) : (a <= b)%N -> (2 ^ Z.of_N a <= 2 ^ Z.of_N b)%Z.
Proof. intros H. apply Z.pow_le_mono_r; lia. Qed.

Lemma time_sleep_in_range (os_sleeps : Z -> bool) (secs : Z) :
  (0 <= secs <= Config.longest_sleep)%Z ->
  Config.time_sleep os_sleeps secs =
    if os_sleeps secs then Config.Slept secs else Config.SleepOSError.
Proof.
  intros H. unfold Config.time_sleep.
  replace (Z.ltb Config.longest_sleep (Z.abs secs)) with false
    by (symmetry; apply Z.ltb_ge; lia).
  replace (Z.ltb secs 0) with false by (symmetry; apply Z.ltb_ge; lia).
  reflexivity.
Qed.

Lemma backoff_converts (attempt : N) (base_delay : Config.number) :
  (Config.is_float base_delay = true -> (attempt < 1024)%N) ->
  (Config.is_float base_delay && N.leb 1024 attempt)%bool = false.
Proof.
  intros H. destruct (Config.is_float base_delay); [|reflexivity].
  apply N.leb_gt. apply H. reflexivity.
Qed.

(** X11.  With a base delay that is not negative and not above the cap, a
    cap of at most 9223372036 seconds and, when the base delay is a float,
    attempts below 1024: the delay of an attempt is never below the base
    delay and never above the cap, it never shrinks from one attempt to a
    later one, it is the base delay doubled once per attempt as long as that
    stays within the cap, and no exception comes from the arguments: the
    operating system is asked to sleep for that delay, at the attempt and at
    the later one. *)
Theorem backoff_is_capped_and_monotone (os_sleeps : Z -> bool) (attempt later : N)
        (base_delay max_delay : Config.number) :
  (0 <= Config.value base_delay)%Z ->
  (Config.value base_delay <= Config.value max_delay)%Z ->
  (Config.value max_delay <= Config.longest_sleep)%Z ->
  (attempt <= later)%N ->
  (Config.is_float base_delay = true -> (later < 1024)%N) ->
  let delay := Config.backoff_delay attempt (Config.value base_delay) (Config.value max_delay) in
  let delay' := Config.backoff_delay later (Config.value base_delay) (Config.value max_delay) in
  (Config.value base_delay <= delay <= Config.value max_delay)%Z /\
  (delay <= delay')%Z /\
  ((Config.value base_delay * 2 ^ Z.of_N attempt <= Config.value max_delay)%Z ->
   delay = (Config.value base_delay * 2 ^ Z.of_N attempt)%Z) /\
  Config.exponential_backoff os_sleeps attempt base_delay max_delay =
    (if os_sleeps delay then Config.Slept delay else Config.SleepOSError) /\
  Config.exponential_backoff os_sleeps later base_delay max_delay =
    (if os_sleeps delay' then Config.Slept delay' else Config.SleepOSError).
Proof.
  intros Hb Hm Hcap Hle Hfl. cbv zeta.
  pose proof (pow2_pos attempt) as Hp.
  pose proof (pow2_pos later) as Hp'.
  pose proof (pow2_mono attempt later Hle) as Hmono.
  assert (Hfl0 : Config.is_float base_delay = true -> (attempt < 1024)%N).
  { intros H. specialize (Hfl H). lia. }
  unfold Config.exponential_backoff.
  rewrite (backoff_converts attempt base_delay Hfl0), (backoff_converts later base_delay Hfl).
  unfold Config.backoff_delay.
  set (b := Config.value base_delay) in *. set (m := Config.value max_delay) in *.
  assert (H1 : (b <= b * 2 ^ Z.of_N attempt)%Z) by nia.
  assert (H2 : (b * 2 ^ Z.of_N attempt <= b * 2 ^ Z.of_N later)%Z) by nia.
  assert (H3 : (b <= b * 2 ^ Z.of_N later)%Z) by nia.
  repeat split; try lia.
  - apply time_sleep_in_range. lia.
  - apply time_sleep_in_range. lia.
Qed.

Lemma backoff_is_capped_and_monotone_witness :
  let delay := Config.backoff_delay 2 3 20 in
  let delay' := Config.backoff_delay 5 3 20 in
  (3 <= delay <= 20)%Z /\
  (delay <= delay')%Z /\
  ((3 * 2 ^ Z.of_N 2 <= 20)%Z -> delay = (3 * 2 ^ Z.of_N 2)%Z) /\
  Config.exponential_backoff (fun _ => true) 2 (Config.Float 3) (Config.Int 20) =
    Config.Slept delay /\
  Config.exponential_backoff (fun _ => true) 5 (Config.Float 3) (Config.Int 20) =
    Config.Slept delay'.
Proof.
  apply (backoff_is_capped_and_monotone (fun _ => true) 2 5 (Config.Float 3) (Config.Int 20)).
  - simpl. lia.
  - simpl. lia.
  - vm_compute. discriminate.
  - lia.
  - intros _. reflexivity.
Defined.

(** X12.  How [exponential_backoff] ends is decided by its arguments, and it
    ends in exactly one of five ways.  It raises [OverflowError] in the
    product when the base delay is a float and the attempt is 1024 or more.
    Otherwise [time.sleep] raises [OverflowError] when the delay is beyond
    9223372036 seconds in either direction, and [ValueError] when the delay
    is negative within that range; the delay is negative exactly when the
    base delay or the cap is.  Otherwise the operating system is asked to
    sleep for the delay, and the call sleeps or ends in its [OSError]. *)
Theorem backoff_outcome (os_sleeps : Z -> bool) (attempt : N)
        (base_delay max_delay : Config.number) :
  let delay := Config.backoff_delay attempt (Config.value base_delay) (Config.value max_delay) in
  let out := Config.exponential_backoff os_sleeps attempt base_delay max_delay in
  let too_large := (Config.is_float base_delay && N.leb 1024 attempt)%bool in
  (out = Config.FloatOverflowError <-> too_large = true) /\
  (out = Config.SleepOverflowError <->
   too_large = false /\
   (delay < - Config.longest_sleep \/ Config.longest_sleep < delay)%Z) /\
  (out = Config.SleepValueError <->
   too_large = false /\ (- Config.longest_sleep <= delay < 0)%Z) /\
  (out = Config.SleepOSError <->
   too_large = false /\ (0 <= delay <= Config.longest_sleep)%Z /\ os_sleeps delay = false) /\
  (forall seconds,
     out = Config.Slept seconds <->
     too_large = false /\ (0 <= delay <= Config.longest_sleep)%Z /\
     os_sleeps delay = true /\ seconds = delay) /\
  ((delay < 0)%Z <-> (Config.value base_delay < 0 \/ Config.value max_delay < 0)%Z).
Proof.
  cbv zeta. pose proof (pow2_pos attempt) as Hp.
  unfold Config.exponential_backoff, Config.time_sleep.
  set (delay := Config.backoff_delay attempt (Config.value base_delay)
                  (Config.value max_delay)).
  assert (Hneg : (delay < 0)%Z <->
                 (Config.value base_delay < 0 \/ Config.value max_delay < 0)%Z).
  { unfold delay, Config.backoff_delay. split.
    - intros Hlt.
      destruct (Z.min_spec (Config.value base_delay * 2 ^ Z.of_N attempt)
                  (Config.value max_delay)) as [[_ He]|[_ He]];
        rewrite He in Hlt; [left; nia | right; lia].
    - intros [Hb|Hm].
      + assert (Config.value base_delay * 2 ^ Z.of_N attempt < 0)%Z by nia. lia.
      + lia. }
  unfold Config.longest_sleep.
  destruct (Config.is_float base_delay && N.leb 1024 attempt)%bool;
    [|destruct (Z.ltb_spec 9223372036 (Z.abs delay)) as [Hbig|Hfit];
      [|destruct (Z.ltb_spec delay 0) as [Hlt|Hge];
        [|destruct (os_sleeps delay) eqn:Hos]]];
    repeat split; intros;
    repeat match goal with H : _ /\ _ |- _ => destruct H end;
    subst; try discriminate; try congruence; try lia; try tauto.
Qed.

Lemma default_delay_small (a : N) :
  (a < 4)%N -> Config.backoff_delay a 1 16 = (2 ^ Z.of_N a)%Z.
Proof.
  intros H. unfold Config.backoff_delay.
  assert (Ha : a = 0%N \/ a = 1%N \/ a = 2%N \/ a = 3%N) by lia.
  destruct Ha as [-> | [-> | [-> | ->]]]; reflexivity.
Qed.

Lemma default_delay_large (a : N) :
  (4 <= a)%N -> Config.backoff_delay a 1 16 = 16%Z.
Proof.
  intros H. unfold Config.backoff_delay.
  pose proof (pow2_mono 4 a H) as Hm. change (2 ^ Z.of_N 4)%Z with 16%Z in Hm. lia.
Qed.

Lemma default_backoff_sleeps (os_sleeps : Z -> bool) (a : N) :
  (forall d, (1 <= d <= 16)%Z -> os_sleeps d = true) ->
  (a < 1024)%N ->
  Config.default_backoff os_sleeps a = Config.Slept (Config.backoff_delay a 1 16).
Proof.
  intros Hos Ha. unfold Config.default_backoff, Config.exponential_backoff.
  cbn [Config.is_float Config.value andb].
  replace (N.leb 1024 a) with false by (symmetry; apply N.leb_gt; exact Ha).
  assert (Hd : (1 <= Config.backoff_delay a 1 16 <= 16)%Z).
  { destruct (N.lt_ge_cases a 4) as [Hlt|Hge].
    - rewrite (default_delay_small a Hlt).
      assert (Hc : a = 0%N \/ a = 1%N \/ a = 2%N \/ a = 3%N) by lia.
      destruct Hc as [-> | [-> | [-> | ->]]]; simpl; lia.
    - rewrite (default_delay_large a Hge). lia. }
  rewrite time_sleep_in_range by (unfold Config.longest_sleep; lia).
  rewrite (Hos _ Hd). reflexivity.
Qed.

Lemma total_default_delay_late (os_sleeps : Z -> bool) (m : nat) :
  (forall d, (1 <= d <= 16)%Z -> os_sleeps d = true) ->
  (5 + m <= 1024)%nat ->
  Config.total_default_delay os_sleeps (5 + m) = (31 + 16 * Z.of_nat m)%Z.
Proof.
  intros Hos. induction m as [|m IH]; intros Hm.
  - cbn [Config.total_default_delay Nat.add].
    rewrite !(default_backoff_sleeps os_sleeps _ Hos) by (simpl; lia). reflexivity.
  - replace (5 + S m)%nat with (S (5 + m)) by lia.
    cbn [Config.total_default_delay]. rewrite IH by lia.
    rewrite (default_backoff_sleeps os_sleeps _ Hos) by lia.
    rewrite default_delay_large by lia. cbn [Config.seconds_slept]. lia.
Qed.

(** X13.  With the default base delay 1.0 and cap 16.0, on an operating
    system that serves sleeps of 1 to 16 seconds: the attempts 0 to 3 sleep
    1, 2, 4 and 8 seconds, the attempts 4 to 1023 sleep 16 seconds, and from
    the attempt 1024 on the call raises [OverflowError] without sleeping,
    since [2 ** attempt] no longer converts to [float].  The attempts 0 to
    n-1, for n up to 1024, together sleep 31 seconds plus 16 for every
    attempt after the fifth. *)
Theorem default_backoff_schedule (os_sleeps : Z -> bool) (attempt : N) (n : nat) :
  (forall d, (1 <= d <= 16)%Z -> os_sleeps d = true) ->
  (n <= 1024)%nat ->
  Config.default_backoff os_sleeps attempt =
    (if N.ltb attempt 4 then Config.Slept (2 ^ Z.of_N attempt)
     else if N.ltb attempt 1024 then Config.Slept 16
     else Config.FloatOverflowError) /\
  Config.total_default_delay os_sleeps n =
    (if Nat.leb n 5 then 2 ^ Z.of_nat n - 1 else 31 + 16 * (Z.of_nat n - 5))%Z.
Proof.
  intros Hos Hn. split.
  - destruct (N.ltb_spec attempt 4) as [Hlt|Hge].
    + rewrite (default_backoff_sleeps os_sleeps attempt Hos) by lia.
      rewrite (default_delay_small attempt Hlt). reflexivity.
    + destruct (N.ltb_spec attempt 1024) as [Hlt|Hbig].
      * rewrite (default_backoff_sleeps os_sleeps attempt Hos Hlt).
        rewrite (default_delay_large attempt Hge). reflexivity.
      * unfold Config.default_backoff, Config.exponential_backoff.
        cbn [Config.is_float andb].
        replace (N.leb 1024 attempt) with true by (symmetry; apply N.leb_le; exact Hbig).
        reflexivity.
  - destruct (Nat.leb_spec n 5) as [Hle|Hgt].
    + assert (Hc : (n = 0 \/ n = 1 \/ n = 2 \/ n = 3 \/ n = 4 \/ n = 5)%nat) by lia.
      destruct Hc as [-> | [-> | [-> | [-> | [-> | ->]]]]];
        cbn [Config.total_default_delay];
        rewrite ?(default_backoff_sleeps os_sleeps _ Hos) by (simpl; lia);
        reflexivity.
    + replace n with (5 + (n - 5))%nat at 1 by lia.
      rewrite (total_default_delay_late os_sleeps (n - 5) Hos) by lia. lia.
Qed.

Lemma default_backoff_schedule_witness :
  Config.default_backoff (fun d => Z.leb d 3600) 2000 =
    (if N.ltb 2000 4 then Config.Slept (2 ^ Z.of_N 2000)
     else if N.ltb 2000 1024 then Config.Slept 16
     else Config.FloatOverflowError) /\
  Config.total_default_delay (fun d => Z.leb d 3600) 7 =
    (if Nat.leb 7 5 then 2 ^ Z.of_nat 7 - 1 else 31 + 16 * (Z.of_nat 7 - 5))%Z.
Proof.
  apply (default_backoff_schedule (fun d => Z.leb d 3600) 2000 7).
  - intros d Hd. apply Z.leb_le. lia.
  - lia.
Defined.

(** *** The token file of [config.py] *)

(** X14.  [config.py] names the token file that [get_tokens] writes exactly
    when the variable DOCKER is not the text 1.  When it is, [config.py]
    names [/data/tokens.json], and no run of [get_tokens] writes under that
    name: it opens [tokens.json] and nothing else. *)
Theorem docker_token_file_is_not_written (env : environ) :
  (Config.TOKEN_FILE (Config.load env) = TOKEN_FILE <-> getenv "DOCKER" "0" env <> "1") /\
  (getenv "DOCKER" "0" env = "1" ->
   Config.TOKEN_FILE (Config.load env) = "/data/tokens.json" /\
   forall cfg net fuel w,
     fs (snd (get_tokens cfg net fuel w)) (Config.TOKEN_FILE (Config.load env)) =
     fs w (Config.TOKEN_FILE (Config.load env))).
Proof.
  cbn [Config.load Config.TOKEN_FILE].
  destruct (String.eqb_spec (getenv "DOCKER" "0" env) "1") as [He|Hne].
  - split.
    + split; [discriminate | intros H; contradiction].
    + intros _. split; [reflexivity|]. intros cfg net fuel w.
      destruct (get_tokens_writes cfg net fuel w)
        as [H | [_ (c & rsp & d & t & _ & _ & _ & _ & H)]]; rewrite H; reflexivity.
  - split.
    + split; [intros _; exact Hne | reflexivity].
    + intros H. contradiction.
Qed.

(** *** Blank values *)

Lemma lstrip_blank (s : string) : blank s = true -> lstrip s = EmptyString.
Proof.
  induction s as [|c s IH]; [reflexivity|].
  cbn [blank]. intros H. apply andb_true_iff in H. destruct H as [Hc Hs].
  cbn [lstrip]. rewrite Hc. exact (IH Hs).
Qed.

Lemma strip_blank (s : string) : blank s = true -> strip s = EmptyString.
Proof. intros H. rewrite strip_unfold, (lstrip_blank s H). reflexivity. Qed.

Ltac split_byte c := destruct c as [[] [] [] [] [] [] [] []].

(** The whitespace that [lstrip] finds by its bytes is the UTF-8 form of a
    character for which [str.isspace()] holds, and the other way round. *)
Lemma skip_space_lead (s : string) : skip_space s = lead s.
Proof.
  unfold skip_space.
  set (l := spaces). vm_compute in l. subst l.
  destruct s as [|a r]; [reflexivity|].
  split_byte a;
    first
      [ reflexivity
      | destruct r as [|b r]; [reflexivity|];
        first
          [ destruct r as [|c r]; reflexivity
          | split_byte b;
            first
              [ reflexivity
              | destruct r as [|c r]; [reflexivity|];
                first [ reflexivity | split_byte c; reflexivity ] ] ] ].
Qed.

Lemma only_spaces_lstrip (n : nat) :
  forall s, (String.length s <= n)%nat ->
            (only_spaces n s = true <-> lstrip s = EmptyString).
Proof.
  induction n as [|n IH]; intros s Hn.
  - destruct s; [|simpl in Hn; lia]. split; reflexivity.
  - destruct s as [|a r]; [split; reflexivity|].
    cbn [only_spaces]. rewrite skip_space_lead, lstrip_step.
    destruct (lead (String a r)) as [r'|] eqn:Hl.
    + apply IH. destruct (lead_split _ _ Hl) as (p & Hs & _ & Hp).
      rewrite Hs, length_app in Hn. lia.
    + split; discriminate.
Qed.

Lemma lstrip_rev_empty (n : nat) :
  forall u, (String.length u <= n)%nat -> u <> EmptyString ->
            lstrip_rev u = EmptyString -> exists x, lead (rev u) = Some x.
Proof.
  induction n as [|n IH]; intros u Hn Hu H.
  - destruct u; [contradiction | simpl in Hn; lia].
  - rewrite lstrip_rev_step in H.
    destruct (lead_rev u) as [u'|] eqn:Hl; [|contradiction].
    destruct (lead_rev_split u u' Hl) as (p & Hs & Hp & Hlen).
    destruct u' as [|c u''].
    + rewrite append_nil_r in Hs. subst u. exists EmptyString. exact Hp.
    + assert (Hn' : (String.length (String c u'') <= n)%nat).
      { rewrite Hs, length_app in Hn. lia. }
      destruct (IH (String c u'') Hn' ltac:(discriminate) H) as [x Hx].
      exists (x ++ rev p). rewrite Hs, rev_app. apply lead_app. exact Hx.
Qed.

Lemma strip_empty_lstrip (s : string) : strip s = EmptyString <-> lstrip s = EmptyString.
Proof.
  rewrite strip_unfold. split.
  - intros H. apply rev_empty in H.
    destruct (lstrip_spec (String.length s) s (Nat.le_refl _)) as [Ht _].
    destruct (lstrip s) as [|c t] eqn:Hls; [reflexivity|]. exfalso.
    assert (Hne : rev (String c t) <> EmptyString).
    { intros He. apply rev_empty in He. discriminate. }
    destruct (lstrip_rev_empty _ (rev (String c t)) (Nat.le_refl _) Hne H) as [x Hx].
    rewrite rev_involutive, Ht in Hx. discriminate.
  - intros H. rewrite H. reflexivity.
Qed.

(** The stripped text is empty exactly when the text has nothing but
    whitespace characters. *)
Lemma strip_empty_iff (s : string) : strip s = EmptyString <-> all_space s = true.
Proof.
  rewrite strip_empty_lstrip. symmetry. apply only_spaces_lstrip. apply Nat.le_refl.
Qed.

Lemma is_empty_iff (s : string) : is_empty s = true <-> s = EmptyString.
Proof. destruct s; simpl; split; intros H; try reflexivity; discriminate. Qed.

Lemma missing_id_or_secret (v : string) :
  In "MISSING" (id_or_secret_issues v) <-> v = EmptyString.
Proof.
  unfold id_or_secret_issues. destruct v as [|c v]; simpl.
  - split; [reflexivity | intros _; left; reflexivity].
  - split; [|discriminate]. intros H. exfalso.
    match type of H with In _ (?a ++ ?b ++ ?d)%list =>
      apply in_app_or in H; destruct H as [H|H];
        [|apply in_app_or in H; destruct H as [H|H]]
    end;
    match type of H with In _ (when ?b _) => destruct b end;
    simpl in H; intuition discriminate.
Qed.

(** X15.  The validator reports a field as MISSING exactly when its variable
    is unset, empty or holds nothing but whitespace characters, those of
    [str.isspace()], the ones outside ASCII such as the no-break space
    included; for the identifier and the secret it then reports nothing
    else; the same condition makes the field of [get_tokens] empty. *)
Theorem missing_iff_blank (env : environ) :
  let c := read_credentials env in
  (In "MISSING" (client_id_issues c) <->
   all_space (getenv "CLIENT_ID" EmptyString env) = true) /\
  (In "MISSING" (client_secret_issues c) <->
   all_space (getenv "CLIENT_SECRET" EmptyString env) = true) /\
  (In "MISSING" (redirect_uri_issues c) <->
   all_space (getenv "REDIRECT_URI" EmptyString env) = true) /\
  (In "MISSING" (user_agent_issues c) <->
   all_space (getenv "USER_AGENT" EmptyString env) = true) /\
  (In "MISSING" (username_issues c) <->
   all_space (getenv "REDDIT_USERNAME" EmptyString env) = true) /\
  (all_space (getenv "CLIENT_ID" EmptyString env) = true ->
   client_id_issues c = ["MISSING"]) /\
  (all_space (getenv "CLIENT_SECRET" EmptyString env) = true ->
   client_secret_issues c = ["MISSING"]) /\
  (CLIENT_ID (load_config env) = EmptyString <->
   all_space (getenv "CLIENT_ID" EmptyString env) = true) /\
  all_space (String (chr 194) (String (chr 160) EmptyString)) = true.
Proof.
  cbv zeta. unfold client_id_issues, client_secret_issues, redirect_uri_issues,
    user_agent_issues, username_issues.
  cbn [read_credentials client_id client_secret redirect_uri user_agent reddit_username
       load_config CLIENT_ID].
  repeat split.
  - intros H. apply strip_empty_iff, missing_id_or_secret. exact H.
  - intros H. apply missing_id_or_secret, strip_empty_iff. exact H.
  - intros H. apply strip_empty_iff, missing_id_or_secret. exact H.
  - intros H. apply missing_id_or_secret, strip_empty_iff. exact H.
  - intros H. apply strip_empty_iff.
    destruct (strip (getenv "REDIRECT_URI" EmptyString env)) as [|a r]; [reflexivity|].
    exfalso. simpl in H.
    apply in_app_or in H. destruct H as [H|H];
      match type of H with In _ (when ?b _) => destruct b end;
      simpl in H; intuition discriminate.
  - intros H. apply strip_empty_iff in H. rewrite H. left. reflexivity.
  - intros H. apply strip_empty_iff.
    destruct (strip (getenv "USER_AGENT" EmptyString env)) as [|a r]; [reflexivity|].
    exfalso. simpl in H.
    apply in_app_or in H. destruct H as [H|H];
      match type of H with In _ (when ?b _) => destruct b end;
      simpl in H; intuition discriminate.
  - intros H. apply strip_empty_iff in H. rewrite H. left. reflexivity.
  - intros H. apply strip_empty_iff.
    destruct (strip (getenv "REDDIT_USERNAME" EmptyString env)) as [|a r]; [reflexivity|].
    exfalso. simpl in H. exact H.
  - intros H. apply strip_empty_iff in H. rewrite H. left. reflexivity.
  - intros H. apply strip_empty_iff in H. rewrite H. reflexivity.
  - intros H. apply strip_empty_iff in H. rewrite H. reflexivity.
  - apply strip_empty_iff.
  - apply strip_empty_iff.
Qed.

(** X16.  A [code] whose value is nothing but whitespace, as in
    [?code=%20], is not treated as missing: the listener answers 200 and
    hands over the empty text, the polling loop ends, since the empty text
    is not [None], and [get_tokens] sends the token request with an empty
    code. *)
Theorem blank_code_is_exchanged (cfg : config) (net : provider) (f : files)
        (k fuel : nat) (path v : string) (vs : list string) :
  fst (load_existing_tokens (start f (Some (k, path)))) = Done false ->
  code_of path = Some (v :: vs) ->
  blank v = true ->
  (k <= fuel)%nat ->
  let run := get_tokens cfg net fuel (start f (Some (k, path))) in
  fst run <> Waiting /\
  auth_code (snd run) = Some EmptyString /\
  listener_log (snd run) =
    [Print "🌍 Waiting for authorization...";
     Reply 200 "Authorization successful! You can close this tab.";
     Print "✅ Authorization Code Captured: "] /\
  network_events (main_log (snd run)) =
    [BrowserOpen (authorization_url cfg); post_event cfg EmptyString] /\
  lookup "code" (post_data (token_request cfg EmptyString)) = Some EmptyString.
Proof.
  intros Hs Hq Hb Hk.
  destruct (Properties.get_tokens_with_code f k path v vs Hs Hq) as [es [Hn Hrun]].
  cbv zeta. rewrite (Hrun cfg net fuel Hk).
  rewrite (strip_blank v Hb).
  split; [apply exchange_ends|].
  match goal with
  | |- context [exchange cfg net ?c (mkWorld ?f0 ?ac ?l ?ib ?ml ?ll)] =>
      destruct (Properties.exchange_frame cfg net c f0 ac l ib ml ll) as [rest [f' [Hw Hr]]]
  end.
  rewrite Hw. cbn [auth_code listener_log main_log]. repeat split.
  rewrite !Properties.network_events_app, Hn, Properties.network_events_post, Hr.
  reflexivity.
Qed.

Lemma blank_code_is_exchanged_witness :
  let run := get_tokens (load_config env_ok) (answers 401 body_invalid_grant) 3
               (start empty_dir (Some (1%nat, "/?code=%20&state=RANDOM_STRING"))) in
  fst run <> Waiting /\
  auth_code (snd run) = Some EmptyString /\
  listener_log (snd run) =
    [Print "🌍 Waiting for authorization...";
     Reply 200 "Authorization successful! You can close this tab.";
     Print "✅ Authorization Code Captured: "] /\
  network_events (main_log (snd run)) =
    [BrowserOpen (authorization_url (load_config env_ok));
     post_event (load_config env_ok) EmptyString] /\
  lookup "code" (post_data (token_request (load_config env_ok) EmptyString)) =
    Some EmptyString.
Proof.
  apply (blank_code_is_exchanged (load_config env_ok) (answers 401 body_invalid_grant)
           empty_dir 1 3 "/?code=%20&state=RANDOM_STRING" " " []).
  - vm_compute. reflexivity.
  - vm_compute. reflexivity.
  - reflexivity.
  - lia.
Defined.

End Extras.
